(** * Cat-picture backup to a cloud disk: a model of [diplom_work_oop.py]

    The script asks an image service for a picture with a caption, has a
    cloud storage service fetch it by URL, polls the transfer and writes a
    JSON record.  Everything it does is a conversation with two remote
    services and the local file system, so the model is a small state and
    exception monad over a world that holds the remote's state, the
    requests sent so far, the progress bar, the log and the files.

    Python values are modelled as follows.
    - [str] is a list of code points ([list N]); slicing and [len] count
      code points, as Python does.
    - a decoded JSON document is a [pyval]; objects are finite maps.
      JSON numbers with a fraction are left out: the only number the
      storage API documents is the integer [progress].
    - exceptions are the classes the script can meet, with the two
      [isinstance] tests its handlers perform. *)

From stdpp Require Import gmap strings list fin_maps.
From Stdlib Require Import ZArith NArith Ascii.
From Stdlib Require String.

#[local] Set Warnings "-register-all".
#[local] Open Scope Z_scope.

(** ** Python strings *)

Module Py.

Abbreviation str := (list N).

(** Code points of an ASCII literal of the source. *)
Definition lit (s : string) : str :=
  (λ a, N_of_ascii a) <$> String.list_ascii_of_string s.

(** [s.replace(old, new)] for one-character [old] and [new]. *)
Definition replace (old new : N) (s : str) : str :=
  (λ c, if decide (c = old) then new else c) <$> s.

(** [s[:n]] *)
Definition slice_to (n : nat) (s : str) : str := take n s.

(** [s.endswith(t)] as a proposition. *)
Definition endswith (s t : str) : Prop := t `suffix_of` s.

End Py.

(** ** File names (BackupManager._sanitize_filename) *)

Module FileName.
Import Py.

(** The double quote is code point 34; the other characters are spelled
    as in the source literal. *)
Definition invalid_chars : str :=
  lit "<>:" ++ [34%N] ++ lit "/\|?* ".

Definition underscore : N := 95%N.

Definition _sanitize_filename (text : str) : str :=
  let text := foldl (λ text char, replace char underscore text) text invalid_chars in
  slice_to 100 text.

(** [safe_filename = self._sanitize_filename(text) + ".jpg"], the name
    [run_backup] derives from the caption. *)
Definition safe_filename (text : str) : str :=
  _sanitize_filename text ++ lit ".jpg".

End FileName.

(** ** Exceptions, decoded JSON and the operations the script applies *)

Module PyVal.
Import Py.

(** The exception classes the script can meet.  The four after
    [RequestException] are its subclasses in the [requests] library;
    [RequestException] itself derives from [IOError] (an alias of
    [OSError]).  Exits that are not [Exception]s (keyboard interrupt,
    [SystemExit]) are outside the model. *)
Inductive exn :=
| RequestException
| HTTPError
| ConnectionError
| ReadTimeout
| RequestsJSONDecodeError
| OSError
| NameError (name : string)
| AttributeError
| TypeError
| ValueError
| UnicodeEncodeError
| OtherException.

(** [except requests.exceptions.RequestException] *)
Definition isinstance_RequestException (e : exn) : bool :=
  match e with
  | RequestException | HTTPError | ConnectionError | ReadTimeout
  | RequestsJSONDecodeError => true
  | _ => false
  end.

(** [except IOError] *)
Definition isinstance_IOError (e : exn) : bool :=
  match e with
  | OSError => true
  | _ => isinstance_RequestException e
  end.

(** [except Exception] and the bare [except:] catch every [exn]. *)
Definition isinstance_Exception (e : exn) : bool := true.

Inductive result (A : Type) :=
| Ok (a : A)
| Raise (e : exn).
Arguments Ok {A} a.
Arguments Raise {A} e.

(** What [json.loads] builds. *)
Inductive pyval :=
| PyNone
| PyBool (b : bool)
| PyInt (z : Z)
| PyStr (s : str)
| PyList (l : list pyval)
| PyDict (d : gmap str pyval).

(** [v.get(key, default)]: only a dict has [get]. *)
Definition py_get (v : pyval) (key : str) (dflt : pyval) : result pyval :=
  match v with
  | PyDict d => Ok (default dflt (d !! key))
  | _ => Raise AttributeError
  end.

(** [v == 'literal'] for a string literal: a value of another type is
    never equal to a string. *)
Definition py_eq_str (v : pyval) (s : str) : bool :=
  match v with
  | PyStr t => bool_decide (t = s)
  | _ => false
  end.

(** The integer a value stands for in [a - b]; [bool] is a subclass of
    [int].  [None] when the subtraction raises [TypeError]. *)
Definition py_num (v : pyval) : option Z :=
  match v with
  | PyInt z => Some z
  | PyBool b => Some (Z.b2z b)
  | _ => None
  end.

(** [s.split(sep)] for a non-empty separator: occurrences are found left
    to right and do not overlap.  [skip] counts the characters of a
    separator still to be passed over, [cur] holds the current piece in
    reverse. *)
Fixpoint split_go (sep : str) (skip : nat) (cur : str) (s : str) : list str :=
  match s with
  | [] => [reverse cur]
  | c :: s' =>
      match skip with
      | S k => split_go sep k cur s'
      | O =>
          if bool_decide (sep `prefix_of` s)
          then reverse cur :: split_go sep (length sep - 1) [] s'
          else split_go sep 0 (c :: cur) s'
      end
  end.

Definition split (sep s : str) : list str := split_go sep 0 [] s.

(** [v.split(sep)[-1]]: only a string has [split]; the list it returns
    is never empty. *)
Definition py_split_last (v : pyval) (sep : str) : result str :=
  match v with
  | PyStr s => Ok (List.last (split sep s) [])
  | _ => Raise AttributeError
  end.

(** *** [int(s)] on header text

    Header values are Latin-1 text, so the decimal digits are [0]-[9] and
    the blanks are the ones listed.  A limit on the number of digits
    exists in recent interpreters ([sys.get_int_max_str_digits()]) and is
    a parameter: [None] means no limit. *)
Definition is_space (c : N) : bool :=
  bool_decide (c ∈ [9; 10; 11; 12; 13; 28; 29; 30; 31; 32; 133; 160]%N).

Fixpoint lstrip (s : str) : str :=
  match s with
  | c :: s' => if is_space c then lstrip s' else s
  | [] => []
  end.

Definition strip (s : str) : str :=
  reverse (lstrip (reverse (lstrip s))).

Definition digit_of (c : N) : option Z :=
  if bool_decide (48 ≤ c ∧ c ≤ 57)%N then Some (Z.of_N c - 48) else None.

(** Digits with single underscores between them; [prev] tells whether the
    previous character was a digit. *)
Fixpoint digits_value (acc : Z) (prev : bool) (s : str) : option Z :=
  match s with
  | [] => if prev then Some acc else None
  | c :: s' =>
      match digit_of c with
      | Some d => digits_value (acc * 10 + d) true s'
      | None =>
          if bool_decide (c = 95%N) && prev
          then digits_value acc false s'
          else None
      end
  end.

Definition count_digits (s : str) : nat :=
  length (filter (λ c, is_Some (digit_of c)) s).

Definition unsigned_value (max_digits : option nat) (s : str) : option Z :=
  match max_digits with
  | Some m => if bool_decide (m < count_digits s)%nat then None else digits_value 0 false s
  | None => digits_value 0 false s
  end.

Definition py_int (max_digits : option nat) (s : str) : result Z :=
  let body :=
    match strip s with
    | 43%N :: r => unsigned_value max_digits r
    | 45%N :: r => Z.opp <$> unsigned_value max_digits r
    | r => unsigned_value max_digits r
    end in
  match body with
  | Some z => Ok z
  | None => Raise ValueError
  end.

End PyVal.

(** ** The world: remote services, local files, log *)

Module World.
Import Py PyVal.

Inductive method := GET | PUT | POST | HEAD.

(** What [requests.get/put/post/head] is given: the URL, the [headers]
    dict and the [params] dict. *)
Record request := {
  meth : method;
  url : str;
  headers : gmap str str;
  params : gmap str str;
}.

(** A response object: status code, the header dict (case-insensitive,
    so keyed by lower-case names) and what [response.json()] does. *)
Record response := {
  status_code : Z;
  resp_headers : gmap str str;
  json : result pyval;
}.

(** A request either comes back with a response or raises. *)
Inductive reply :=
| Answer (r : response)
| Fails (e : exn).

#[global] Instance method_eq_dec : EqDecision method.
Proof. solve_decision. Defined.

(** How many of the requests are [PUT]s. *)
Definition puts (l : list request) : nat :=
  length (filter (λ q, meth q = PUT) l).

(** [response.raise_for_status()]: [HTTPError] for 4xx and 5xx. *)
Definition raise_for_status (r : response) : result () :=
  if bool_decide (400 ≤ status_code r ∧ status_code r < 600)
  then Raise HTTPError else Ok ().

(** The dataclass [FileInfo]. *)
Record FileInfo := {
  filename : str;
  size_bytes : Z;
  text : str;
  download_url : str;
  yandex_path : str;
}.

(** One object of the list [_save_to_json] dumps. *)
Record json_entry := {
  j_filename : str;
  j_size_bytes : Z;
  j_text : str;
  j_download_url : str;
  j_yandex_path : str;
  j_backup_time : str;
  j_group_name : str;
}.

(** The two loggers: [logging.getLogger(__name__)] of the clients and
    ['CatBackup'] of the manager. *)
Inductive logger := ModuleLogger | CatBackup.
Inductive level := INFO | WARNING | ERROR.

(** The messages of the source, one constructor per format string, with
    the values the string interpolates. *)
Inductive message :=
| FolderExists (folder_name : str)
| FolderCreated (folder_name : str)
| FolderCreateRefused (body : pyval)
| FolderRequestFailed (e : exn)
| UploadStarts (save_path : str)
| UploadRequestFailed (e : exn)
| UploadFinished (name : str)
| UploadFailed (msg : pyval)
| StatusCheckFailed (e : exn)
| UploadWaitExceeded
| ImageUrlObtained (caption : str)
| ImageUrlStatus (code : Z)
| ImageUrlRequestFailed (e : exn)
| Rule
| BackupStarts
| BackupInputs (caption group : str)
| Stage1
| NoImageUrl
| Stage2
| NoFolder
| Stage3
| NoUpload
| BackupDone
| CriticalError (e : exn)
| NothingToSave
| SavedTo (json_filename : str)
| SaveFailed (e : exn).

(** What the script cannot decide by itself.  The remote services are a
    state machine answering requests; [quote] is
    [requests.utils.quote]; [write_file] is the outcome of opening the
    named file for writing and dumping into it (a refused write leaves
    the file as it was; a write that breaks off half-way is not
    modelled); [strftime] is the clock reading used in the records;
    [int_max_str_digits] is the interpreter's digit limit for [int]. *)
Record env (S : Type) := {
  serve : S → request → reply * S;
  quote : str → result str;
  write_file : str → result ();
  strftime : str;
  int_max_str_digits : option nat;
}.
Arguments serve {S} _ _ _.
Arguments quote {S} _ _.
Arguments write_file {S} _ _.
Arguments strftime {S} _.
Arguments int_max_str_digits {S} _.

(** The state a run reads and changes: the remote's state, the requests
    sent (oldest first), the seconds slept, the increments given to the
    progress bar, the log, the files opened for writing, their contents
    and the manager's list [uploaded_files]. *)
Record world (S : Type) := {
  net : S;
  sent : list request;
  slept : nat;
  pbar : list Z;
  log : list (logger * level * message);
  opened : list str;
  files : gmap str (list json_entry);
  uploaded_files : list FileInfo;
}.
Arguments net {S} _.
Arguments sent {S} _.
Arguments slept {S} _.
Arguments pbar {S} _.
Arguments log {S} _.
Arguments opened {S} _.
Arguments files {S} _.
Arguments uploaded_files {S} _.

Section Monad.
Context {S : Type}.

(** Computations that read and change the world and may raise. *)
Definition M (A : Type) : Type := world S → result A * world S.

Definition ret {A} (a : A) : M A := λ w, (Ok a, w).

Definition raise {A} (e : exn) : M A := λ w, (Raise e, w).

Definition bind {A B} (m : M A) (k : A → M B) : M B :=
  λ w, match m w with
       | (Ok a, w') => k a w'
       | (Raise e, w') => (Raise e, w')
       end.

(** [try: m  except C as e: h e], where [C] is given by its
    [isinstance] test.  The changes [m] made before raising stay. *)
Definition try_except {A} (m : M A) (C : exn → bool) (h : exn → M A) : M A :=
  λ w, match m w with
       | (Ok a, w') => (Ok a, w')
       | (Raise e, w') => if C e then h e w' else (Raise e, w')
       end.

Definition lift {A} (r : result A) : M A := λ w, (r, w).

End Monad.

Declare Scope py_scope.
Delimit Scope py_scope with py.
Notation "x <- m ;; k" := (bind m (λ x, k))
  (at level 100, m at next level, right associativity) : py_scope.
Notation "m ;;; k" := (bind m (λ _, k))
  (at level 100, right associativity) : py_scope.

Section Effects.
Context {S : Type} (E : env S).

(** [requests.<method>(url, headers=..., params=...)] *)
Definition send (req : request) : M (S:=S) response :=
  λ w, let '(rep, s') := serve E (net w) req in
       let w' := {| net := s'; sent := sent w ++ [req]; slept := slept w;
                    pbar := pbar w; log := log w; opened := opened w;
                    files := files w; uploaded_files := uploaded_files w |} in
       match rep with
       | Answer r => (Ok r, w')
       | Fails e => (Raise e, w')
       end.

(** [time.sleep(1)] *)
Definition sleep1 : M (S:=S) () :=
  λ w, (Ok (), {| net := net w; sent := sent w; slept := Datatypes.S (slept w);
                  pbar := pbar w; log := log w; opened := opened w;
                  files := files w; uploaded_files := uploaded_files w |}).

(** [pbar.update(n)] *)
Definition pbar_update (n : Z) : M (S:=S) () :=
  λ w, (Ok (), {| net := net w; sent := sent w; slept := slept w;
                  pbar := pbar w ++ [n]; log := log w; opened := opened w;
                  files := files w; uploaded_files := uploaded_files w |}).

(** [logger.info/warning/error(...)] *)
Definition logmsg (l : logger) (lv : level) (m : message) : M (S:=S) () :=
  λ w, (Ok (), {| net := net w; sent := sent w; slept := slept w;
                  pbar := pbar w; log := log w ++ [(l, lv, m)]; opened := opened w;
                  files := files w; uploaded_files := uploaded_files w |}).

(** [with open(name, 'w') as f: json.dump(data, f)]: the file is opened
    for writing; when that and the dump go through, it holds [data].
    When the block raises, the files are kept as they were, which is
    what a refused [open] does.  A dump that breaks off after the file
    was opened leaves it cut short; that state has no model here, and
    the properties about a write that raised speak of the result, the
    log and the attempt, not of the files. *)
Definition dump_to (name : str) (data : list json_entry) : M (S:=S) () :=
  λ w, let fs := match write_file E name with
                 | Ok _ => <[name := data]> (files w)
                 | Raise _ => files w
                 end in
       (write_file E name,
        {| net := net w; sent := sent w; slept := slept w;
           pbar := pbar w; log := log w; opened := opened w ++ [name];
           files := fs; uploaded_files := uploaded_files w |}).

(** [self.uploaded_files.append(fi)] *)
Definition append_uploaded (fi : FileInfo) : M (S:=S) () :=
  λ w, (Ok (), {| net := net w; sent := sent w; slept := slept w;
                  pbar := pbar w; log := log w; opened := opened w;
                  files := files w; uploaded_files := uploaded_files w ++ [fi] |}).

Definition get_uploaded : M (S:=S) (list FileInfo) :=
  λ w, (Ok (uploaded_files w), w).

End Effects.

End World.

(** ** class YandexDiskClient *)

Module YandexDiskClient.
Import Py PyVal World.
#[local] Open Scope py_scope.

Definition BASE_URL : str := lit "https://cloud-api.yandex.net/v1/disk".

(** The attributes set by [__init__] (the logger is [ModuleLogger]). *)
Record t := {
  token : str;
  self_headers : gmap str str;
}.

Definition __init__ (token : str) : t :=
  {| token := token;
     self_headers := {[ lit "Authorization" := lit "OAuth " ++ token ]} |}.

(** How an iteration of the polling loop ends: with a [return], or by
    going on to the next one with the progress seen so far. *)
Inductive ctl :=
| Return (b : bool)
| Continue (last_progress : Z).

Section Methods.
Context {S : Type} (E : env S).
#[local] Abbreviation M := (M (S:=S)).

(** The existence probe and the creation request of [create_folder]. *)
Definition probe_request (self : t) (folder_name : str) : request :=
  {| meth := GET; url := BASE_URL ++ lit "/resources";
     headers := self_headers self; params := {[ lit "path" := folder_name ]} |}.

Definition mkdir_request (self : t) (folder_name : str) : request :=
  {| meth := PUT; url := BASE_URL ++ lit "/resources";
     headers := self_headers self; params := {[ lit "path" := folder_name ]} |}.

Definition create_folder (self : t) (folder_name : str) : M bool :=
  try_except
    (check_response <- send E (probe_request self folder_name) ;;
     if bool_decide (status_code check_response = 200) then
       logmsg ModuleLogger INFO (FolderExists folder_name) ;;;
       ret true
     else
       response <- send E (mkdir_request self folder_name) ;;
       if bool_decide (status_code response ∈ [201; 409]) then
         logmsg ModuleLogger INFO (FolderCreated folder_name) ;;;
         ret true
       else
         body <- lift (json response) ;;
         logmsg ModuleLogger ERROR (FolderCreateRefused body) ;;;
         ret false)
    isinstance_RequestException
    (λ e, logmsg ModuleLogger ERROR (FolderRequestFailed e) ;;;
          ret false).

(** The status request of [_check_upload_status]. *)
Definition status_request (self : t) (operation_id : str) : request :=
  {| meth := GET; url := BASE_URL ++ lit "/operations/" ++ operation_id;
     headers := self_headers self; params := ∅ |}.

(** The body of [for _ in range(30)], with its [try]. *)
Definition poll_once (self : t) (operation_id name : str) (last_progress : Z) : M ctl :=
  try_except
    (response <- send E (status_request self operation_id) ;;
     lift (raise_for_status response) ;;;
     data <- lift (json response) ;;
     status <- lift (py_get data (lit "status") PyNone) ;;
     if py_eq_str status (lit "success") then
       pbar_update (100 - last_progress) ;;;
       logmsg ModuleLogger INFO (UploadFinished name) ;;;
       ret (Return true)
     else if py_eq_str status (lit "in-progress") then
       progress <- lift (py_get data (lit "progress") (PyInt 0)) ;;
       match py_num progress with
       | Some p =>
           pbar_update (p - last_progress) ;;;
           sleep1 ;;;
           ret (Continue p)
       | None => raise TypeError
       end
     else if py_eq_str status (lit "failed") then
       msg <- lift (py_get data (lit "message") PyNone) ;;
       logmsg ModuleLogger ERROR (UploadFailed msg) ;;;
       ret (Return false)
     else
       sleep1 ;;;
       ret (Continue last_progress))
    isinstance_RequestException
    (λ e, logmsg ModuleLogger ERROR (StatusCheckFailed e) ;;;
          ret (Return false)).

(** [n] iterations of the loop; [None] when it runs out without a
    [return]. *)
Fixpoint poll_loop (n : nat) (self : t) (operation_id name : str)
    (last_progress : Z) : M (option bool) :=
  match n with
  | O => ret None
  | Datatypes.S k =>
      c <- poll_once self operation_id name last_progress ;;
      match c with
      | Return b => ret (Some b)
      | Continue p => poll_loop k self operation_id name p
      end
  end.

Definition _check_upload_status (self : t) (operation_id name : str) : M bool :=
  r <- poll_loop 30 self operation_id name 0 ;;
  match r with
  | Some b => ret b
  | None =>
      logmsg ModuleLogger WARNING UploadWaitExceeded ;;;
      ret false
  end.

Definition upload_request (self : t) (file_url save_path : str) : request :=
  {| meth := POST; url := BASE_URL ++ lit "/resources/upload";
     headers := self_headers self;
     params := {[ lit "url" := file_url; lit "path" := save_path;
                  lit "disable_redirects" := lit "true" ]} |}.

(** [response.json().get('href', '').split('operation_id=')[-1]] *)
Definition operation_id_of (body : pyval) : result str :=
  match py_get body (lit "href") (PyStr []) with
  | Ok href => py_split_last href (lit "operation_id=")
  | Raise e => Raise e
  end.

Definition upload_by_url (self : t) (file_url save_path : str) : M bool :=
  try_except
    (logmsg ModuleLogger INFO (UploadStarts save_path) ;;;
     response <- send E (upload_request self file_url save_path) ;;
     lift (raise_for_status response) ;;;
     body <- lift (json response) ;;
     operation_id <- lift (operation_id_of body) ;;
     if bool_decide (operation_id ≠ []) then
       _check_upload_status self operation_id save_path
     else
       ret true)
    isinstance_RequestException
    (λ e, logmsg ModuleLogger ERROR (UploadRequestFailed e) ;;;
          ret false).

End Methods.
End YandexDiskClient.

(** ** class CataasClient *)

Module CataasClient.
Import Py PyVal World.
#[local] Open Scope py_scope.

Definition BASE_URL : str := lit "https://cataas.com".

Section Methods.
Context {S : Type} (E : env S).
#[local] Abbreviation M := (M (S:=S)).

Definition head_request (url : str) : request :=
  {| meth := HEAD; url := url; headers := ∅; params := ∅ |}.

(** [Optional[str]]: [None] on any failure. *)
Definition get_cat_image_url (text : str) : M (option str) :=
  try_except
    (quoted <- lift (quote E text) ;;
     let url := BASE_URL ++ lit "/cat/says/" ++ quoted in
     response <- send E (head_request url) ;;
     if bool_decide (status_code response = 200) then
       logmsg ModuleLogger INFO (ImageUrlObtained text) ;;;
       ret (Some url)
     else
       logmsg ModuleLogger ERROR (ImageUrlStatus (status_code response)) ;;;
       ret None)
    isinstance_RequestException
    (λ e, logmsg ModuleLogger ERROR (ImageUrlRequestFailed e) ;;;
          ret None).

End Methods.
End CataasClient.

(** ** class BackupManager *)

Module BackupManager.
Import Py PyVal World.
#[local] Open Scope py_scope.

(** What a module-level name can be bound to. *)
Inductive pyobj :=
| ClsFileInfo
| ClsYandexDiskClient
| ClsCataasClient
| ClsBackupManager
| FnMain
| Imported.

(** The names bound at module level when the script runs: its imports,
    its four classes and [main]. *)
Definition module_globals : gmap string pyobj :=
  list_to_map
    [ ("requests", Imported); ("json", Imported); ("logging", Imported);
      ("Optional", Imported); ("Dict", Imported); ("Any", Imported);
      ("dataclass", Imported); ("tqdm", Imported); ("time", Imported);
      ("FileInfo", ClsFileInfo);
      ("YandexDiskClient", ClsYandexDiskClient);
      ("CataasClient", ClsCataasClient);
      ("BackupManager", ClsBackupManager);
      ("main", FnMain) ]%string.

(** Evaluating a global name: [NameError] when nothing is bound to it
    (no builtin has the name of a class of the script). *)
Definition lookup_name (g : gmap string pyobj) (name : string) : result pyobj :=
  match g !! name with
  | Some o => Ok o
  | None => Raise (NameError name)
  end.

(** Calling the object with the token, to get a storage client.  Only
    the client class yields one; any other object of the module either
    rejects the call or returns something without [create_folder].
    Which of the two it is depends on the object (an imported class may
    well take a string), so the exception given for those is indicative
    only: the properties about a bound name are stated for the client
    class. *)
Definition call_for_client (o : pyobj) (token : str) : result YandexDiskClient.t :=
  match o with
  | ClsYandexDiskClient => Ok (YandexDiskClient.__init__ token)
  | ClsBackupManager => Raise AttributeError
  | _ => Raise TypeError
  end.

(** The attribute set by [__init__] that never changes; the list
    [uploaded_files] lives in the world. *)
Record t := { netology_group : str }.

Section Methods.
Context {S : Type} (E : env S).
#[local] Abbreviation M := (M (S:=S)).

Definition _get_remote_file_size (url : str) : M Z :=
  try_except
    (response <- send E (CataasClient.head_request url) ;;
     match resp_headers response !! lit "content-length" with
     | Some v => lift (py_int (int_max_str_digits E) v)
     | None => ret 0
     end)
    isinstance_Exception
    (λ _, ret 0).

Definition entry_of (self : t) (fi : FileInfo) : json_entry :=
  {| j_filename := filename fi;
     j_size_bytes := size_bytes fi;
     j_text := text fi;
     j_download_url := download_url fi;
     j_yandex_path := yandex_path fi;
     j_backup_time := strftime E;
     j_group_name := netology_group self |}.

Definition json_filename (self : t) : str :=
  lit "backup_info_" ++ netology_group self ++ lit ".json".

Definition _save_to_json (self : t) : M () :=
  uploaded <- get_uploaded ;;
  match uploaded with
  | [] => logmsg CatBackup WARNING NothingToSave
  | _ =>
      let data := entry_of self <$> uploaded in
      try_except
        (dump_to E (json_filename self) data ;;;
         logmsg CatBackup INFO (SavedTo (json_filename self)))
        isinstance_IOError
        (λ e, logmsg CatBackup ERROR (SaveFailed e))
  end.

(** [run_backup] with the module-level names given by [g]; the name it
    evaluates for the storage client is [YandexDiskUploader]. *)
Definition run_backup_in (g : gmap string pyobj) (self : t)
    (caption yandex_token : str) : M bool :=
  logmsg CatBackup INFO Rule ;;;
  logmsg CatBackup INFO BackupStarts ;;;
  logmsg CatBackup INFO (BackupInputs caption (netology_group self)) ;;;
  try_except
    (logmsg CatBackup INFO Stage1 ;;;
     image_url <- CataasClient.get_cat_image_url E caption ;;
     match image_url with
     | None | Some [] =>
         logmsg CatBackup ERROR NoImageUrl ;;;
         ret false
     | Some image_url =>
         logmsg CatBackup INFO Stage2 ;;;
         cls <- lift (lookup_name g "YandexDiskUploader") ;;
         yandex_client <- lift (call_for_client cls yandex_token) ;;
         created <- YandexDiskClient.create_folder E yandex_client (netology_group self) ;;
         if negb created then
           logmsg CatBackup ERROR NoFolder ;;;
           ret false
         else
           logmsg CatBackup INFO Stage3 ;;;
           let safe_filename := FileName.safe_filename caption in
           let yandex_path := netology_group self ++ lit "/" ++ safe_filename in
           uploaded <- YandexDiskClient.upload_by_url E yandex_client image_url yandex_path ;;
           if negb uploaded then
             logmsg CatBackup ERROR NoUpload ;;;
             ret false
           else
             size <- _get_remote_file_size image_url ;;
             append_uploaded
               {| filename := safe_filename; size_bytes := size; text := caption;
                  download_url := image_url; yandex_path := yandex_path |} ;;;
             _save_to_json self ;;;
             logmsg CatBackup INFO BackupDone ;;;
             logmsg CatBackup INFO Rule ;;;
             ret true
     end)
    isinstance_Exception
    (λ e, logmsg CatBackup ERROR (CriticalError e) ;;;
          ret false).

(** The method as the script runs it. *)
Definition run_backup (self : t) (caption yandex_token : str) : M bool :=
  run_backup_in module_globals self caption yandex_token.

End Methods.
End BackupManager.

(** ** Remote services used to run the model on concrete inputs *)

Module Remotes.
Import Py PyVal World YandexDiskClient.

(** A remote that plays a script: each request gets the next reply, and
    the connection fails once the script is over. *)
Definition scripted_serve (s : list reply) (req : request) : reply * list reply :=
  match s with
  | r :: s' => (r, s')
  | [] => (Fails ConnectionError, [])
  end.

(** [requests.utils.quote] on text made of unreserved characters, which
    it leaves as they are. *)
Definition quote_plain (t : str) : result str := Ok t.

Definition scripted (write : str → result ()) : env (list reply) :=
  {| serve := scripted_serve; quote := quote_plain; write_file := write;
     strftime := lit "2024-01-01 00:00:00"; int_max_str_digits := Some 4300%nat |}.

(** A storage service that only knows folders: the probe tells whether
    the path is there, creation adds it or reports the conflict. *)
Definition folder_serve (s : gset str) (req : request) : reply * gset str :=
  let answer code := Answer {| status_code := code; resp_headers := ∅; json := Ok (PyDict ∅) |} in
  match params req !! lit "path", meth req with
  | Some p, GET => (answer (if bool_decide (p ∈ s) then 200 else 404), s)
  | Some p, PUT => if bool_decide (p ∈ s) then (answer 409, s) else (answer 201, {[ p ]} ∪ s)
  | _, _ => (answer 400, s)
  end.

Definition folder_store : env (gset str) :=
  {| serve := folder_serve; quote := quote_plain; write_file := λ _, Ok ();
     strftime := lit "2024-01-01 00:00:00"; int_max_str_digits := Some 4300%nat |}.

Definition start {S : Type} (s : S) : world S :=
  {| net := s; sent := []; slept := 0; pbar := []; log := []; opened := [];
     files := ∅; uploaded_files := [] |}.

Definition ok_json (code : Z) (body : pyval) : reply :=
  Answer {| status_code := code; resp_headers := ∅; json := Ok body |}.

Definition ok_headers (code : Z) (h : gmap str str) : reply :=
  Answer {| status_code := code; resp_headers := h; json := Raise ValueError |}.

Definition in_progress (p : Z) : reply :=
  ok_json 200 (PyDict {[ lit "status" := PyStr (lit "in-progress");
                         lit "progress" := PyInt p ]}).

Definition queued : reply :=
  ok_json 200 (PyDict {[ lit "status" := PyStr (lit "pending") ]}).

(** A success report whose progress is not even a number. *)
Definition success_odd : reply :=
  ok_json 200 (PyDict {[ lit "status" := PyStr (lit "success");
                         lit "progress" := PyStr (lit "n/a") ]}).

Definition client : YandexDiskClient.t := YandexDiskClient.__init__ (lit "secret").

(** An upload response whose reference ends with the marker, and one
    whose reference does not have the marker at all. *)
Definition accepted_empty_id : reply :=
  ok_json 202 (PyDict {[ lit "href" :=
    PyStr (lit "https://cloud-api.yandex.net/v1/disk/operations?operation_id=") ]}).

Definition accepted_plain_href : reply :=
  ok_json 202 (PyDict {[ lit "href" :=
    PyStr (lit "https://cloud-api.yandex.net/v1/disk/operations/33ca7d") ]}).

Definition image_found : reply :=
  ok_headers 200 {[ lit "content-length" := lit "48213" ]}.

Definition folder_found : reply := ok_json 200 (PyDict ∅).

(** Both services answer every request of a run favourably: the image
    is there, the folder is there, the upload is accepted with no
    operation to wait for, and the size is announced. *)
Definition favourable : list reply :=
  [image_found; folder_found; accepted_empty_id; image_found].

(** A disk that refuses every write. *)
Definition read_only : str → result () := λ _, Raise OSError.

(** The module-level names with [YandexDiskUploader] bound to the client
    class. *)
Definition globals_with_uploader : gmap string BackupManager.pyobj :=
  <[ "YandexDiskUploader"%string := BackupManager.ClsYandexDiskClient ]>
    BackupManager.module_globals.

Definition manager : BackupManager.t := {| BackupManager.netology_group := lit "SPD-142" |}.

End Remotes.

(** ** Vocabulary for the statements about the storage client *)

Module Reports.
Import Py PyVal World YandexDiskClient.

(** What a status response has to be for the loop to read a status in
    it: not an HTTP error, and a JSON object. *)
Definition status_body (r : response) : option (gmap str pyval) :=
  match raise_for_status r, json r with
  | Ok _, Ok (PyDict d) => Some d
  | _, _ => None
  end.

(** The response reports that the transfer is done. *)
Definition reports_success (r : response) : bool :=
  match status_body r with
  | Some d => py_eq_str (default PyNone (d !! lit "status")) (lit "success")
  | None => false
  end.

(** The response reports neither [success] nor [failed]: the transfer is
    in progress, with an integer progress when one is given, or the
    status is one the client does not know. *)
Definition reports_pending (r : response) : bool :=
  match status_body r with
  | Some d =>
      let status := default PyNone (d !! lit "status") in
      negb (py_eq_str status (lit "success")) &&
      negb (py_eq_str status (lit "failed")) &&
      (if py_eq_str status (lit "in-progress")
       then bool_decide (is_Some (py_num (default (PyInt 0) (d !! lit "progress"))))
       else true)
  | None => false
  end.

Section Remote.
Context {S : Type} (E : env S).

(** The remote's state after answering [n] times the same request. *)
Fixpoint after (n : nat) (s : S) (req : request) : S :=
  match n with
  | O => s
  | Datatypes.S k => after k (snd (serve E s req)) req
  end.

(** The next [n] answers to [req] are all pending reports. *)
Fixpoint pending_for (n : nat) (s : S) (req : request) : bool :=
  match n with
  | O => true
  | Datatypes.S k =>
      match fst (serve E s req) with
      | Answer r => reports_pending r
      | Fails _ => false
      end && pending_for k (snd (serve E s req)) req
  end.

(** The status code of the answer to [req] in state [s], if any. *)
Definition answer_code (s : S) (req : request) : option Z :=
  match fst (serve E s req) with
  | Answer r => Some (status_code r)
  | Fails _ => None
  end.

(** An existence probe that found the path finds it again when asked
    next: the remote does not drop a folder for having been asked. *)
Definition probe_stable (req : request) : Prop :=
  ∀ s, answer_code s req = Some 200 →
       answer_code (snd (serve E s req)) req = Some 200.

(** A creation request answered 201 or 409 leaves the path there: the
    next probe finds it. *)
Definition mkdir_effective (probe mkdir : request) : Prop :=
  ∀ s c, answer_code s mkdir = Some c → c ∈ [201; 409] →
         answer_code (snd (serve E s mkdir)) probe = Some 200.

End Remote.
End Reports.

(** ** More vocabulary: what a run leaves alone, what it may send *)

Module Frames.
Import Py PyVal World YandexDiskClient Reports.

(** The per-character view of the sanitiser's loop. *)
Definition substitute (c : N) : N :=
  if bool_decide (c ∈ FileName.invalid_chars) then FileName.underscore else c.

(** The progress bar's position: the sum of the increments it got. *)
Definition bar_total (l : list Z) : Z := foldr Z.add 0 l.

(** The response reports a transfer in progress with a progress that is
    not a number. *)
Definition reports_bad_progress (r : response) : bool :=
  match status_body r with
  | Some d =>
      py_eq_str (default PyNone (d !! lit "status")) (lit "in-progress") &&
      bool_decide (py_num (default (PyInt 0) (d !! lit "progress")) = None)
  | None => false
  end.

(** What sending a request and reading its body raises, if anything:
    the transport's exception, [HTTPError] for a 4xx or 5xx status, or
    the exception of [response.json()]. *)
Definition reading_raises (rep : reply) : option exn :=
  match rep with
  | Fails e => Some e
  | Answer r =>
      match raise_for_status r, json r with
      | Raise e, _ => Some e
      | Ok _, Raise e => Some e
      | Ok _, Ok _ => None
      end
  end.

(** [sep in s] for strings: the separator occurs somewhere in the
    text. *)
Fixpoint occurs (sep s : str) : bool :=
  match s with
  | [] => bool_decide (sep = [])
  | _ :: s' => bool_decide (sep `prefix_of` s) || occurs sep s'
  end.



(** The name [YandexDiskUploader] is unbound, as in the script, or bound
    to the class of the storage client. *)
Definition unbound_or_client (g : gmap string BackupManager.pyobj) : bool :=
  match g !! "YandexDiskUploader"%string with
  | None | Some BackupManager.ClsYandexDiskClient => true
  | Some _ => false
  end.

(** A write the manager lives with: it went through, or it raised an
    [IOError]. *)
Definition write_tolerated (r : result ()) : bool :=
  match r with
  | Ok _ => true
  | Raise e => isinstance_IOError e
  end.

Section Relations.
Context {S : Type}.

(** The local side of the world is the same: the manager's list and the
    files. *)
Definition same_local (w w' : world S) : Prop :=
  uploaded_files w' = uploaded_files w ∧ opened w' = opened w ∧
  files w' = files w.

(** The requests [w'] has and [w] has not are all in [P]. *)
Definition sent_only (P : request → Prop) (w w' : world S) : Prop :=
  ∃ l, sent w' = sent w ++ l ∧ Forall P l.

(** A computation keeps a relation between the world it starts in and
    the world it ends in, whether it returns or raises. *)
Definition keeps {A} (R : world S → world S → Prop) (m : M (S:=S) A) : Prop :=
  ∀ w, R w (snd (m w)).

(** A computation raises nothing of the class [C]. *)
Definition raises_no {A} (C : exn → bool) (m : M (S:=S) A) : Prop :=
  ∀ w e, fst (m w) = Raise e → C e = false.

End Relations.

(** A request of the storage client: to an address under its base URL,
    with its authorization header. *)
Definition storage_request (self : YandexDiskClient.t) (q : request) : Prop :=
  YandexDiskClient.BASE_URL `prefix_of` url q ∧
  headers q = {[ lit "Authorization" := lit "OAuth " ++ token self ]}.



End Frames.

(** ** More answers of the remote services *)

Module Answers.
Import Py PyVal World Remotes.

(** The scripted remote with a disk that takes every write. *)
Definition plain : env (list reply) := scripted (λ _, Ok ()).

Definition failed_body : gmap str pyval :=
  {[ lit "status" := PyStr (lit "failed");
     lit "message" := PyStr (lit "quota exceeded") ]}.

Definition failed_report : reply := ok_json 200 (PyDict failed_body).

Definition unavailable : reply := ok_json 503 (PyDict ∅).

Definition bad_progress_report : reply :=
  ok_json 200 (PyDict {[ lit "status" := PyStr (lit "in-progress");
                         lit "progress" := PyStr (lit "half") ]}).

Definition not_found : reply := ok_json 404 (PyDict ∅).

Definition conflict : reply := ok_json 409 (PyDict ∅).

Definition accepted (href : string) : reply :=
  ok_json 202 (PyDict {[ lit "href" := PyStr (lit href) ]}).


Definition sample_file : FileInfo :=
  {| filename := lit "hi.jpg"; size_bytes := 48213; text := lit "hi";
     download_url := lit "https://cataas.com/cat/says/hi";
     yandex_path := lit "SPD-142/hi.jpg" |}.

(** A world at rest whose manager already holds some uploads. *)
Definition holding {S : Type} (s : S) (l : list FileInfo) : world S :=
  {| net := s; sent := []; slept := 0; pbar := []; log := []; opened := [];
     files := ∅; uploaded_files := l |}.

End Answers.

(** ** The entry point: main() *)

Module Main.
Import Py PyVal World.

(** [str.isspace] for one character: the white space of Unicode. *)
Definition isspace (c : N) : bool :=
  bool_decide ((9 ≤ c ∧ c ≤ 13) ∨ (28 ≤ c ∧ c ≤ 32) ∨ c = 133 ∨ c = 160 ∨
               c = 5760 ∨ (8192 ≤ c ∧ c ≤ 8202) ∨ c = 8232 ∨ c = 8233 ∨
               c = 8239 ∨ c = 8287 ∨ c = 12288)%N.

Fixpoint str_lstrip (s : str) : str :=
  match s with
  | c :: s' => if isspace c then str_lstrip s' else s
  | [] => []
  end.

(** [s.strip()] *)
Definition str_strip (s : str) : str :=
  reverse (str_lstrip (reverse (str_lstrip s))).

(** What [main] prints, one constructor per [print] of the source. *)
Inductive printed :=
| Bar60
| Title
| CaptionEmpty
| TokenEmpty
| Starting
| ShowCaption (caption : str)
| ShowGroup (group : str)
| Dashes40
| Succeeded
| ShowFolder (group : str)
| ShowJson (group : str)
| ShowLogs
| Failed
| CheckLogs.

Inductive prompt := AskCaption | AskToken.

(** What appears on the terminal. *)
Inductive shown :=
| Print (p : printed)
| Ask (p : prompt).

(** The terminal around the world: the lines still to be typed, what
    has been shown, and the world of the run. *)
Record console (S : Type) := {
  stdin : list str;
  stdout : list shown;
  inner : world S;
}.
Arguments stdin {S} _.
Arguments stdout {S} _.
Arguments inner {S} _.

Definition NETOLOGY_GROUP_NAME : str := lit "SPD-142".

Section Console.
Context {S : Type} (E : env S).

(** The outcome of opening [backup.log], which [_setup_logging] does
    when a manager is built. *)
Context (open_log : result ()).

Definition CM (A : Type) : Type := console S → result A * console S.

Definition cbind {A B} (m : CM A) (k : A → CM B) : CM B :=
  λ c, match m c with
       | (Ok a, c') => k a c'
       | (Raise e, c') => (Raise e, c')
       end.

#[local] Notation "x <- m ;; k" := (cbind m (λ x, k))
  (at level 100, m at next level, right associativity).
#[local] Notation "m ;;; k" := (cbind m (λ _, k))
  (at level 100, right associativity).

Definition print (p : printed) : CM () :=
  λ c, (Ok (), {| stdin := stdin c; stdout := stdout c ++ [Print p]; inner := inner c |}).

(** [input(prompt)]: shows the prompt and takes the next line, without
    its newline.  At the end of the input it raises [EOFError], which is
    kept under [OtherException]. *)
Definition input (p : prompt) : CM str :=
  λ c, match stdin c with
       | l :: rest =>
           (Ok l, {| stdin := rest; stdout := stdout c ++ [Ask p]; inner := inner c |})
       | [] =>
           (Raise OtherException,
            {| stdin := []; stdout := stdout c ++ [Ask p]; inner := inner c |})
       end.

(** A computation of the run, inside the console. *)
Definition in_world {A} (m : M (S:=S) A) : CM A :=
  λ c, let '(r, w') := m (inner c) in
       (r, {| stdin := stdin c; stdout := stdout c; inner := w' |}).

(** [BackupManager.__init__]: the group, an empty list of uploads, and
    the logger, whose file handler opens [backup.log].  The handlers
    themselves are not part of the model. *)
Definition __init__ (netology_group : str) : M (S:=S) BackupManager.t :=
  λ w, match open_log with
       | Ok _ =>
           (Ok {| BackupManager.netology_group := netology_group |},
            {| net := net w; sent := sent w; slept := slept w; pbar := pbar w;
               log := log w; opened := opened w; files := files w;
               uploaded_files := [] |})
       | Raise e => (Raise e, w)
       end.

Definition main : CM () :=
  print Bar60 ;;; print Title ;;; print Bar60 ;;;
  line <- input AskCaption ;;
  let text := str_strip line in
  if bool_decide (text = []) then print CaptionEmpty
  else
    line <- input AskToken ;;
    let yandex_token := str_strip line in
    if bool_decide (yandex_token = []) then print TokenEmpty
    else
      print Starting ;;; print (ShowCaption text) ;;;
      print (ShowGroup NETOLOGY_GROUP_NAME) ;;; print Dashes40 ;;;
      backup_manager <- in_world (__init__ NETOLOGY_GROUP_NAME) ;;
      ok <- in_world (BackupManager.run_backup E backup_manager text yandex_token) ;;
      (if ok then
         print Succeeded ;;; print (ShowFolder NETOLOGY_GROUP_NAME) ;;;
         print (ShowJson NETOLOGY_GROUP_NAME) ;;; print ShowLogs
       else
         print Failed ;;; print CheckLogs) ;;;
      print Bar60.

End Console.

(** A console at the start of a session. *)
Definition session {S : Type} (lines : list str) (w : world S) : console S :=
  {| stdin := lines; stdout := []; inner := w |}.

End Main.

(** * Properties *)

(** ** File names *)

Module FileNameProps.
Import Py FileName.

Lemma replace_removes old new (s : str) :
  new ≠ old → old ∉ replace old new s.
Proof.
  intros Hne Hin. unfold replace in Hin.
  apply list_elem_of_fmap in Hin as (c & Hc & _).
  destruct (decide (c = old)); congruence.
Qed.

Lemma replace_keeps_out c old new (s : str) :
  c ∉ s → c ≠ new → c ∉ replace old new s.
Proof.
  intros Hout Hne Hin. unfold replace in Hin.
  apply list_elem_of_fmap in Hin as (d & Hd & Hds).
  destruct (decide (d = old)); subst; [congruence | contradiction].
Qed.

Lemma length_replace old new (s : str) :
  length (replace old new s) = length s.
Proof. unfold replace. apply length_fmap. Qed.

(** Once a character is out, the remaining replacements keep it out. *)
Lemma replace_all_keeps_out (l : list N) : ∀ (t : str) c,
  c ≠ underscore → c ∉ t →
  c ∉ foldl (λ text char, replace char underscore text) t l.
Proof.
  induction l as [|d l IH]; intros t c Hne Hout; simpl; [done|].
  apply IH; [done|]. by apply replace_keeps_out.
Qed.

Lemma replace_all_removes (l : list N) : ∀ (t : str) c,
  underscore ∉ l → c ∈ l →
  c ∉ foldl (λ text char, replace char underscore text) t l.
Proof.
  induction l as [|d l IH]; intros t c Hu Hc; simpl.
  - by apply elem_of_nil in Hc.
  - apply not_elem_of_cons in Hu as [Hud Hul].
    apply elem_of_cons in Hc as [->|Hc].
    + apply replace_all_keeps_out; [done|]. by apply replace_removes.
    + by apply IH.
Qed.

Lemma length_replace_all (l : list N) : ∀ t : str,
  length (foldl (λ text char, replace char underscore text) t l) = length t.
Proof.
  induction l as [|d l IH]; intros t; simpl; [done|].
  by rewrite IH, length_replace.
Qed.

Lemma underscore_valid : underscore ∉ invalid_chars.
Proof. vm_compute. intros H. repeat (apply elem_of_cons in H as [H|H]; [discriminate|]).
  by apply elem_of_nil in H. Qed.

(** The sanitised text holds no forbidden character, whatever the
    caption. *)
Lemma sanitize_clean (text : str) c :
  c ∈ invalid_chars → c ∉ _sanitize_filename text.
Proof.
  intros Hc Hin. unfold _sanitize_filename, slice_to in Hin.
  apply (replace_all_removes invalid_chars text c underscore_valid Hc).
  apply elem_of_take in Hin as (i & Hi & _).
  apply list_elem_of_lookup. by exists i.
Qed.

(** C6: for every caption that contains a character of the forbidden
    set (the nine characters of [invalid_chars] and the space), the
    derived file name contains none of them and ends in [.jpg]. *)
Theorem safe_filename_clean (text : str) :
  (∃ c, c ∈ invalid_chars ∧ c ∈ text) →
  (∀ c, c ∈ invalid_chars → c ∉ safe_filename text) ∧
  endswith (safe_filename text) (lit ".jpg").
Proof.
  intros _. split.
  - intros c Hc Hin. unfold safe_filename in Hin.
    apply elem_of_app in Hin as [Hin|Hin].
    + by apply (sanitize_clean text c).
    + revert Hc Hin. vm_compute. intros Hc Hin.
      repeat (apply elem_of_cons in Hin as [->|Hin];
              [repeat (apply elem_of_cons in Hc as [Hc|Hc]; [discriminate|]);
               by apply elem_of_nil in Hc|]).
      by apply elem_of_nil in Hin.
  - unfold endswith, safe_filename. by apply suffix_app_r.
Qed.

Lemma safe_filename_clean_witness :
  (∀ c, c ∈ invalid_chars → c ∉ safe_filename (lit "my cat?")) ∧
  endswith (safe_filename (lit "my cat?")) (lit ".jpg").
Proof.
  apply safe_filename_clean. exists 32%N.
  split; apply (bool_decide_unpack _); vm_compute; exact I.
Defined.

(** C7: a caption of 250 characters gives a pre-extension name of
    exactly 100 characters. *)
Theorem sanitize_length_250 (text : str) :
  length text = 250%nat → length (_sanitize_filename text) = 100%nat.
Proof.
  intros H. unfold _sanitize_filename, slice_to.
  rewrite length_take, length_replace_all, H. reflexivity.
Qed.

Lemma sanitize_length_250_witness :
  length (_sanitize_filename (replicate 250 32%N)) = 100%nat.
Proof. apply sanitize_length_250. reflexivity. Defined.

End FileNameProps.

(** ** The size probe *)

Module SizeProbeProps.
Import Py PyVal World Remotes BackupManager.

Lemma digit_of_nonneg c d : digit_of c = Some d → 0 ≤ d.
Proof.
  unfold digit_of. case_bool_decide as Hc; [|done].
  intros [= <-]. lia.
Qed.

Lemma digits_value_nonneg (s : str) : ∀ acc prev n,
  0 ≤ acc → digits_value acc prev s = Some n → 0 ≤ n.
Proof.
  induction s as [|c s IH]; intros acc prev n Hacc; simpl.
  - destruct prev; [|done]. by intros [= <-].
  - destruct (digit_of c) as [d|] eqn:Hd.
    + apply IH. apply digit_of_nonneg in Hd. lia.
    + destruct (bool_decide (c = 95%N) && prev); [|done]. by apply IH.
Qed.

Lemma unsigned_value_nonneg m (s : str) n :
  unsigned_value m s = Some n → 0 ≤ n.
Proof.
  unfold unsigned_value. destruct m as [m|].
  - case_bool_decide; [done|]. by apply digits_value_nonneg.
  - by apply digits_value_nonneg.
Qed.

(** [int] gives a negative number only for text that, blanks apart,
    starts with a minus sign. *)
Lemma py_int_sign m (s : str) n :
  py_int m s = Ok n → 0 ≤ n ∨ ∃ rest, strip s = 45%N :: rest.
Proof.
  unfold py_int. destruct (strip s) as [|c r] eqn:Hs.
  - destruct (unsigned_value m []) eqn:Hu; [|done].
    intros [= <-]. left. by eapply unsigned_value_nonneg.
  - destruct (decide (c = 45%N)) as [->|Hc]; [right; by eexists|].
    intros H. left. revert H.
    assert (∀ o, (match o with Some z => Ok z | None => Raise ValueError end) = Ok n →
                 (∀ z, o = Some z → 0 ≤ z) → 0 ≤ n) as Hgen.
    { intros [z|]; [|done]. intros [= <-] Hz. by apply Hz. }
    intros H. eapply Hgen; [exact H|]. intros z.
    destruct c as [|p]; [by apply unsigned_value_nonneg|].
    do 6 (destruct p as [p|p|]; try by apply unsigned_value_nonneg).
    congruence.
Qed.

Section Probe.
Context {S : Type} (E : env S).

(** C8, amended: the size probe never raises and returns an integer;
    it is 0 unless the response carries a [content-length] header that
    [int] accepts (so it is 0 when the header is missing, when the
    request fails and when the header is not a number), and it is
    non-negative unless that header, blanks apart, starts with a minus
    sign. *)
Theorem size_probe_amended (url : str) (w : world S) :
  ∃ n, fst (_get_remote_file_size E url w) = Ok n ∧
       (n = 0 ∨ ∃ r v, fst (serve E (net w) (CataasClient.head_request url)) = Answer r ∧
                        resp_headers r !! lit "content-length" = Some v ∧
                        py_int (int_max_str_digits E) v = Ok n) ∧
       (0 ≤ n ∨ ∃ r v rest, fst (serve E (net w) (CataasClient.head_request url)) = Answer r ∧
                        resp_headers r !! lit "content-length" = Some v ∧
                        strip v = 45%N :: rest).
Proof.
  unfold _get_remote_file_size, try_except, bind, send, lift, ret.
  destruct (serve E (net w) (CataasClient.head_request url)) as [[r|e] s'] eqn:Hs; simpl.
  - destruct (resp_headers r !! lit "content-length") as [v|] eqn:Hv.
    + destruct (py_int (int_max_str_digits E) v) as [n|e] eqn:Hn; simpl.
      * exists n. split; [done|]. split.
        -- right. by exists r, v.
        -- destruct (py_int_sign _ _ _ Hn) as [Hpos|[rest Hrest]]; [by left|].
           right. by exists r, v, rest.
      * exists 0. split; [done|]. split; left; [done|lia].
    + exists 0. split; [done|]. split; left; [done|lia].
  - exists 0. split; [done|]. split; left; [done|lia].
Qed.

End Probe.

(** C8 as stated fails: the probe's answer is the header's number, sign
    included, so a response announcing a length of -5 is recorded as
    -5. *)
Lemma size_probe_negative :
  ∃ n, fst (_get_remote_file_size (scripted (λ _, Ok ()))
              (lit "https://cataas.com/cat/says/hi")
              (start [ok_headers 200 {[ lit "content-length" := lit "-5" ]}])) = Ok n ∧
       ¬ 0 ≤ n.
Proof. exists (-5). split; [vm_compute; reflexivity | lia]. Qed.

(** The three ways the probe ends in 0: no header, a failed request, a
    header that is not a number. *)
Example size_probe_no_header :
  fst (_get_remote_file_size (scripted (λ _, Ok ())) (lit "u")
         (start [ok_headers 200 ∅])) = Ok 0.
Proof. vm_compute. reflexivity. Qed.

Example size_probe_request_fails :
  fst (_get_remote_file_size (scripted (λ _, Ok ())) (lit "u")
         (start [Fails ReadTimeout])) = Ok 0.
Proof. vm_compute. reflexivity. Qed.

Example size_probe_not_a_number :
  fst (_get_remote_file_size (scripted (λ _, Ok ())) (lit "u")
         (start [ok_headers 200 {[ lit "content-length" := lit "12, 12" ]}])) = Ok 0.
Proof. vm_compute. reflexivity. Qed.

Example size_probe_number :
  fst (_get_remote_file_size (scripted (λ _, Ok ())) (lit "u")
         (start [ok_headers 200 {[ lit "content-length" := lit "48213" ]}])) = Ok 48213.
Proof. vm_compute. reflexivity. Qed.

End SizeProbeProps.

(** ** The storage client *)

Module StorageProps.
Import Py PyVal World Remotes YandexDiskClient Reports.

Section Polling.
Context {S : Type} (E : env S).

(** One iteration on a pending report: one request, one second of
    sleep, and the loop goes on. *)
Lemma poll_once_pending self op name last (w : world S) r :
  fst (serve E (net w) (status_request self op)) = Answer r →
  reports_pending r = true →
  ∃ last' w',
    poll_once E self op name last w = (Ok (Continue last'), w') ∧
    net w' = snd (serve E (net w) (status_request self op)) ∧
    sent w' = sent w ++ [status_request self op] ∧
    slept w' = Datatypes.S (slept w) ∧
    log w' = log w ∧ opened w' = opened w ∧ files w' = files w ∧
    uploaded_files w' = uploaded_files w.
Proof.
  intros Hr Hp. unfold reports_pending, status_body in Hp.
  unfold poll_once, try_except, bind, send, lift.
  destruct (serve E (net w) (status_request self op)) as [rep s'] eqn:Hserve.
  simpl in Hr. subst rep. simpl.
  destruct (raise_for_status r) as [[]|]; [|done].
  destruct (json r) as [[| | | | |d]|]; try done. simpl.
  apply andb_prop in Hp as [Hp Hprog]. apply andb_prop in Hp as [Hs1 Hs2].
  apply negb_true_iff in Hs1, Hs2. rewrite Hs1.
  destruct (py_eq_str (default PyNone (d !! lit "status")) (lit "in-progress")).
  - apply bool_decide_eq_true in Hprog as [p Hp].
    rewrite Hp. simpl. eexists _, _. split; [reflexivity|]. simpl. tauto.
  - rewrite Hs2. simpl.
    eexists _, _. split; [reflexivity|]. simpl. tauto.
Qed.

(** One iteration on a success report: one request, no sleep, and the
    method returns [True]. *)
Lemma poll_once_success self op name last (w : world S) r :
  fst (serve E (net w) (status_request self op)) = Answer r →
  reports_success r = true →
  ∃ w',
    poll_once E self op name last w = (Ok (Return true), w') ∧
    net w' = snd (serve E (net w) (status_request self op)) ∧
    sent w' = sent w ++ [status_request self op] ∧
    slept w' = slept w ∧
    log w' = log w ++ [(ModuleLogger, INFO, UploadFinished name)] ∧
    opened w' = opened w ∧ files w' = files w ∧
    uploaded_files w' = uploaded_files w.
Proof.
  intros Hr Hp. unfold reports_success, status_body in Hp.
  unfold poll_once, try_except, bind, send, lift.
  destruct (serve E (net w) (status_request self op)) as [rep s'] eqn:Hserve.
  simpl in Hr. subst rep. simpl.
  destruct (raise_for_status r) as [[]|]; [|done].
  destruct (json r) as [[| | | | |d]|]; try done. simpl.
  rewrite Hp. simpl. eexists. split; [reflexivity|]. simpl. tauto.
Qed.

(** [n] pending reports take the loop through [n] iterations. *)
Lemma poll_loop_pending self op name (n m : nat) : ∀ last (w : world S),
  pending_for E n (net w) (status_request self op) = true →
  ∃ last' w',
    poll_loop E (n + m) self op name last w = poll_loop E m self op name last' w' ∧
    net w' = after E n (net w) (status_request self op) ∧
    sent w' = sent w ++ replicate n (status_request self op) ∧
    slept w' = (slept w + n)%nat ∧
    log w' = log w ∧ opened w' = opened w ∧ files w' = files w ∧
    uploaded_files w' = uploaded_files w.
Proof.
  induction n as [|n IH]; intros last w Hpend.
  - exists last, w. simpl. rewrite app_nil_r, Nat.add_0_r. tauto.
  - simpl in Hpend. apply andb_prop in Hpend as [Hr Hrest].
    destruct (fst (serve E (net w) (status_request self op))) as [r|] eqn:Hfst; [|done].
    destruct (poll_once_pending self op name last w r Hfst Hr)
      as (last1 & w1 & Hstep & Hnet & Hsent & Hslept & Hlog & Hop & Hfiles & Hup).
    rewrite <- Hnet in Hrest.
    destruct (IH last1 w1 Hrest)
      as (last' & w' & Hloop & Hnet' & Hsent' & Hslept' & Hlog' & Hop' & Hfiles' & Hup').
    exists last', w'. split.
    { simpl. unfold bind at 1. rewrite Hstep. exact Hloop. }
    simpl. rewrite Hnet', Hnet, Hsent', Hsent, Hslept', Hslept, Hlog', Hop', Hfiles', Hup'.
    rewrite <- app_assoc. simpl. repeat split; try done; lia.
Qed.

(** C3: when the next 30 answers of the status endpoint are all pending
    reports (in progress, or a status the client does not know; none
    success, none failed), [_check_upload_status] returns [False] after
    exactly 30 requests and 30 seconds of sleep, logging that the wait
    was exceeded; it asks no 31st time. *)
Theorem poll_gives_up_after_30 self op name (w : world S) :
  pending_for E 30 (net w) (status_request self op) = true →
  let out := _check_upload_status E self op name w in
  fst out = Ok false ∧
  sent (snd out) = sent w ++ replicate 30 (status_request self op) ∧
  slept (snd out) = (slept w + 30)%nat ∧
  log (snd out) = log w ++ [(ModuleLogger, WARNING, UploadWaitExceeded)].
Proof.
  intros Hpend out.
  destruct (poll_loop_pending self op name 30 0 0 w Hpend)
    as (last' & w' & Hloop & _ & Hsent & Hslept & Hlog & _).
  assert (poll_loop E 30 self op name 0 w = (Ok None, w')) as Hrun by exact Hloop.
  subst out. unfold _check_upload_status, bind. rewrite Hrun. simpl.
  rewrite Hsent, Hslept, Hlog. done.
Qed.

(** C4: when, after [k < 30] pending reports, the status endpoint
    reports success, [_check_upload_status] returns [True] at that
    request: it has sent [k + 1] requests, does not sleep after the
    last one, and the rest of the response (its progress included) and
    the iterations left play no part. *)
Theorem poll_success_is_immediate self op name (k : nat) (w : world S) r :
  (k < 30)%nat →
  pending_for E k (net w) (status_request self op) = true →
  fst (serve E (after E k (net w) (status_request self op)) (status_request self op))
    = Answer r →
  reports_success r = true →
  let out := _check_upload_status E self op name w in
  fst out = Ok true ∧
  sent (snd out) = sent w ++ replicate (Datatypes.S k) (status_request self op) ∧
  slept (snd out) = (slept w + k)%nat ∧
  log (snd out) = log w ++ [(ModuleLogger, INFO, UploadFinished name)].
Proof.
  intros Hk Hpend Hr Hsucc out.
  destruct (poll_loop_pending self op name k (30 - k) 0 w Hpend)
    as (last' & w' & Hloop & Hnet & Hsent & Hslept & Hlog & _).
  rewrite <- Hnet in Hr.
  destruct (poll_once_success self op name last' w' r Hr Hsucc)
    as (w2 & Hstep & _ & Hsent2 & Hslept2 & Hlog2 & _).
  assert (poll_loop E 30 self op name 0 w = (Ok (Some true), w2)) as Hrun.
  { replace 30%nat with (k + (30 - k))%nat at 1 by lia. rewrite Hloop.
    destruct (30 - k)%nat as [|m] eqn:Hm; [lia|].
    simpl. unfold bind. by rewrite Hstep. }
  subst out. unfold _check_upload_status, bind. rewrite Hrun. simpl.
  rewrite Hsent2, Hsent, Hslept2, Hslept, Hlog2, Hlog.
  repeat split; try done.
  by rewrite <- app_assoc, <- replicate_S_end.
Qed.

(** *** Upload by URL *)




(** A separator that occurs nowhere leaves the text in one piece. *)
Lemma split_go_no_occurrence (sep : str) : ∀ (s cur : str),
  (∀ t, t `suffix_of` s → ¬ sep `prefix_of` t) →
  split_go sep 0 cur s = [reverse cur ++ s].
Proof.
  induction s as [|c s IH]; intros cur Hno; simpl.
  - by rewrite app_nil_r.
  - rewrite bool_decide_eq_false_2 by (by apply Hno).
    rewrite IH.
    + by rewrite reverse_cons, <- app_assoc.
    + intros t Ht. apply Hno. by apply suffix_cons_r.
Qed.

(** So a reference that does not have the marker is, whole, the
    identifier the client takes. *)
Lemma operation_id_of_no_marker (d : gmap str pyval) (href : str) :
  d !! lit "href" = Some (PyStr href) →
  (∀ t, t `suffix_of` href → ¬ lit "operation_id=" `prefix_of` t) →
  operation_id_of (PyDict d) = Ok href.
Proof.
  intros Hd Hno. unfold operation_id_of. simpl. rewrite Hd. simpl.
  unfold split. by rewrite split_go_no_occurrence.
Qed.








(** *** Folder creation *)

Lemma puts_snoc_get (l : list request) q :
  meth q = GET → puts (l ++ [q]) = puts l.
Proof.
  intros Hq. unfold puts. rewrite filter_app, length_app.
  rewrite filter_cons_False, filter_nil by (rewrite Hq; done). simpl. lia.
Qed.

Lemma puts_snoc_put (l : list request) q :
  meth q = PUT → puts (l ++ [q]) = Datatypes.S (puts l).
Proof.
  intros Hq. unfold puts. rewrite filter_app, length_app.
  rewrite filter_cons_True, filter_nil by done. simpl. lia.
Qed.

(** When the probe finds the folder, the call returns [True] after that
    one request. *)
Lemma create_folder_found self path (w : world S) :
  answer_code E (net w) (probe_request self path) = Some 200 →
  create_folder E self path w =
    (Ok true,
     {| net := snd (serve E (net w) (probe_request self path));
        sent := sent w ++ [probe_request self path];
        slept := slept w; pbar := pbar w;
        log := log w ++ [(ModuleLogger, INFO, FolderExists path)];
        opened := opened w; files := files w;
        uploaded_files := uploaded_files w |}).
Proof.
  unfold answer_code, create_folder, try_except, bind, send, logmsg.
  destruct (serve E (net w) (probe_request self path)) as [[r|e] s']; simpl; [|done].
  intros [= ->]. done.
Qed.

(** A call sends the probe, and after it at most the creation request. *)
Lemma create_folder_sent self path (w : world S) :
  let out := create_folder E self path w in
  sent (snd out) = sent w ++ [probe_request self path] ∨
  sent (snd out) = sent w ++ [probe_request self path; mkdir_request self path].
Proof.
  intros out. subst out.
  unfold create_folder, try_except, bind, send, logmsg, lift, ret.
  destruct (serve E (net w) (probe_request self path)) as [[r|e] s']; simpl.
  - case_bool_decide; simpl; [by left|].
    destruct (serve E s' (mkdir_request self path)) as [[r2|e2] s2]; simpl.
    + case_bool_decide; simpl.
      * right. by rewrite <- app_assoc.
      * destruct (json r2) as [b|e]; simpl.
        -- right. by rewrite <- app_assoc.
        -- destruct (isinstance_RequestException e); simpl; right; by rewrite <- app_assoc.
    + destruct (isinstance_RequestException e2); simpl; right; by rewrite <- app_assoc.
  - destruct (isinstance_RequestException e); simpl; by left.
Qed.

(** Whatever the remote does, a call performs at most one [PUT]. *)
Lemma create_folder_one_put self path (w : world S) :
  (puts (sent (snd (create_folder E self path w))) ≤ puts (sent w) + 1)%nat.
Proof.
  destruct (create_folder_sent self path w) as [-> | ->].
  - rewrite puts_snoc_get by done. lia.
  - change [probe_request self path; mkdir_request self path]
      with ([probe_request self path] ++ [mkdir_request self path]).
    rewrite app_assoc, puts_snoc_put, puts_snoc_get by done. lia.
Qed.

(** After a call that returned [True], the probe finds the folder, on a
    remote where creation takes effect and a reported folder stays
    reported. *)
Lemma create_folder_then_found self path (w : world S) :
  probe_stable E (probe_request self path) →
  mkdir_effective E (probe_request self path) (mkdir_request self path) →
  fst (create_folder E self path w) = Ok true →
  answer_code E (net (snd (create_folder E self path w))) (probe_request self path)
    = Some 200.
Proof.
  intros Hstable Hmk.
  pose proof (Hstable (net w)) as Hst. unfold answer_code in Hst.
  unfold create_folder, try_except, bind, send, logmsg, lift, ret.
  destruct (serve E (net w) (probe_request self path)) as [[r|e] s'] eqn:Hs; simpl in *.
  - case_bool_decide as Hc; simpl.
    + intros _. apply Hst. by rewrite Hc.
    + pose proof (Hmk s') as Hm. unfold answer_code in Hm.
      destruct (serve E s' (mkdir_request self path)) as [[r2|e2] s2]; simpl in *.
      * case_bool_decide as Hc2; simpl.
        -- intros _. by eapply Hm.
        -- destruct (json r2) as [b|e]; simpl; [done|].
           destruct (isinstance_RequestException e); simpl; done.
      * destruct (isinstance_RequestException e2); simpl; done.
  - destruct (isinstance_RequestException e); simpl; done.
Qed.

(** Idempotence in general: a call that follows a successful one
    returns [True] too, and sends the probe only. *)
Lemma create_folder_again self path (w : world S) :
  probe_stable E (probe_request self path) →
  mkdir_effective E (probe_request self path) (mkdir_request self path) →
  let out1 := create_folder E self path w in
  let out2 := create_folder E self path (snd out1) in
  fst out1 = Ok true →
  fst out2 = Ok true ∧ sent (snd out2) = sent (snd out1) ++ [probe_request self path].
Proof.
  intros Hstable Hmk out1 out2 H1. subst out2.
  rewrite (create_folder_found self path (snd out1)); [done|].
  by apply create_folder_then_found.
Qed.

(** C5: when the existence probe of the first call reports the folder
    (HTTP 200) and the remote keeps reporting a folder it has reported,
    two calls of [create_folder] with the same path both return [True],
    the first one sends no [PUT], and at most one [PUT] is sent over the
    two calls. *)
Theorem create_folder_idempotent self path (w : world S) :
  answer_code E (net w) (probe_request self path) = Some 200 →
  probe_stable E (probe_request self path) →
  let out1 := create_folder E self path w in
  let out2 := create_folder E self path (snd out1) in
  fst out1 = Ok true ∧ fst out2 = Ok true ∧
  puts (sent (snd out1)) = puts (sent w) ∧
  (puts (sent (snd out2)) ≤ puts (sent w) + 1)%nat.
Proof.
  intros Hfound Hstable out1 out2.
  assert (Hone := create_folder_one_put self path (snd out1)). fold out2 in Hone.
  subst out2 out1. revert Hone.
  rewrite (create_folder_found self path w Hfound). simpl.
  rewrite create_folder_found by (simpl; by apply Hstable). simpl.
  rewrite !puts_snoc_get by done. intros Hone. repeat split; lia.
Qed.

End Polling.

(** *** The theorems on concrete remotes *)

Lemma poll_gives_up_after_30_witness :
  let w := start (replicate 15 (in_progress 40) ++ replicate 16 queued) in
  let out := _check_upload_status (scripted (λ _, Ok ())) client (lit "op7") (lit "f.jpg") w in
  fst out = Ok false ∧
  sent (snd out) = sent w ++ replicate 30 (status_request client (lit "op7")) ∧
  slept (snd out) = (slept w + 30)%nat ∧
  log (snd out) = log w ++ [(ModuleLogger, WARNING, UploadWaitExceeded)].
Proof. apply poll_gives_up_after_30. vm_compute. reflexivity. Defined.

Lemma poll_success_is_immediate_witness :
  let w := start [in_progress 40; queued; success_odd; in_progress 90] in
  let out := _check_upload_status (scripted (λ _, Ok ())) client (lit "op7") (lit "f.jpg") w in
  fst out = Ok true ∧
  sent (snd out) = sent w ++ replicate 3 (status_request client (lit "op7")) ∧
  slept (snd out) = (slept w + 2)%nat ∧
  log (snd out) = log w ++ [(ModuleLogger, INFO, UploadFinished (lit "f.jpg"))].
Proof.
  eapply (poll_success_is_immediate (scripted (λ _, Ok ())) client (lit "op7") (lit "f.jpg") 2).
  - lia.
  - vm_compute. reflexivity.
  - vm_compute. reflexivity.
  - vm_compute. reflexivity.
Defined.



(** A reference without the marker is taken whole as the identifier, so
    the client does poll, at an address made of the whole reference. *)
Example upload_plain_href_polls :
  let out := upload_by_url (scripted (λ _, Ok ())) client (lit "https://cataas.com/cat/says/hi")
               (lit "SPD-142/hi.jpg") (start [accepted_plain_href; success_odd]) in
  fst out = Ok true ∧
  url <$> sent (snd out) =
    [ lit "https://cloud-api.yandex.net/v1/disk/resources/upload";
      lit "https://cloud-api.yandex.net/v1/disk/operations/https://cloud-api.yandex.net/v1/disk/operations/33ca7d" ].
Proof. vm_compute. split; reflexivity. Qed.

Lemma folder_store_stable self path :
  probe_stable folder_store (probe_request self path).
Proof.
  intros s. unfold answer_code. simpl. unfold folder_serve. simpl.
  rewrite lookup_singleton_eq. simpl. done.
Qed.

Lemma create_folder_idempotent_witness :
  let w := start ({[ lit "SPD-142" ]} : gset str) in
  let out1 := create_folder folder_store client (lit "SPD-142") w in
  let out2 := create_folder folder_store client (lit "SPD-142") (snd out1) in
  fst out1 = Ok true ∧ fst out2 = Ok true ∧
  puts (sent (snd out1)) = puts (sent w) ∧
  (puts (sent (snd out2)) ≤ puts (sent w) + 1)%nat.
Proof.
  apply create_folder_idempotent.
  - vm_compute. reflexivity.
  - apply folder_store_stable.
Defined.

(** On a folder that is not there yet, the first call creates it with
    one [PUT] and the second finds it: one [PUT] in all. *)
Example create_folder_twice_fresh :
  let w := start (∅ : gset str) in
  let out1 := create_folder folder_store client (lit "SPD-142") w in
  let out2 := create_folder folder_store client (lit "SPD-142") (snd out1) in
  fst out1 = Ok true ∧ fst out2 = Ok true ∧
  meth <$> sent (snd out2) = [GET; PUT; GET].
Proof. vm_compute. repeat split; reflexivity. Qed.

End StorageProps.

(** ** The orchestrator *)

Module BackupProps.
Import Py PyVal World Remotes CataasClient BackupManager.

Lemma uploader_unbound :
  lookup_name module_globals "YandexDiskUploader" = Raise (NameError "YandexDiskUploader").
Proof. vm_compute. reflexivity. Qed.

Section Run.
Context {S : Type} (E : env S).

(** Image resolution changes neither the files nor the list of uploads. *)
Lemma get_cat_image_url_local caption (w : world S) :
  let out := get_cat_image_url E caption w in
  uploaded_files (snd out) = uploaded_files w ∧
  opened (snd out) = opened w ∧ files (snd out) = files w.
Proof.
  intros out. subst out.
  unfold get_cat_image_url, try_except, bind, lift, send, logmsg.
  destruct (quote E caption) as [q|e]; simpl.
  - destruct (serve E (net w) _) as [[r|e] s']; simpl.
    + case_bool_decide; simpl; done.
    + destruct (isinstance_RequestException e); simpl; done.
  - destruct (isinstance_RequestException e); simpl; done.
Qed.

(** The run up to the point where the image URL is known, with the
    unbound name already evaluated. *)
Ltac to_image_stage caption :=
  unfold run_backup, run_backup_in; rewrite uploader_unbound;
  unfold try_except, bind, logmsg at 1 2 3 4; simpl;
  match goal with |- context [get_cat_image_url ?E caption ?w0] =>
    pose proof (get_cat_image_url_local caption w0) as Hloc;
    destruct (get_cat_image_url E caption w0) as [[[[|c u]|]|e] w1]
  end; simpl in *.

(** C1: whatever the caption, the token, the state of the world and the
    behaviour of the remote services, [run_backup] returns [False]:
    either no image URL is obtained, or the storage client is to be
    built from a name the module does not bind, and the handler at the
    top turns the exception into [False]. *)
Theorem run_backup_never_succeeds self caption token (w : world S) :
  fst (run_backup E self caption token w) = Ok false.
Proof.
  to_image_stage caption.
  - (* an empty URL *) reflexivity.
  - (* a URL: [NameError], caught *) reflexivity.
  - (* no URL *) reflexivity.
  - (* an exception out of the image client, caught *) reflexivity.
Qed.

(** No run records an upload or touches a file. *)
Lemma run_backup_records_nothing self caption token (w : world S) :
  let out := run_backup E self caption token w in
  uploaded_files (snd out) = uploaded_files w ∧
  opened (snd out) = opened w ∧ files (snd out) = files w.
Proof. intros out. subst out. to_image_stage caption; done. Qed.

(** When the image is found, the run stops at the construction of the
    storage client: the name it uses is unbound, and the top-level
    handler logs the [NameError]; no request reaches the storage
    service. *)
Lemma run_backup_name_error self caption token (w : world S) q r :
  quote E caption = Ok q →
  fst (serve E (net w) (head_request (BASE_URL ++ lit "/cat/says/" ++ q))) = Answer r →
  status_code r = 200 →
  let out := run_backup E self caption token w in
  fst out = Ok false ∧
  sent (snd out) = sent w ++ [head_request (BASE_URL ++ lit "/cat/says/" ++ q)] ∧
  log (snd out) = log w ++
    [ (CatBackup, INFO, Rule); (CatBackup, INFO, BackupStarts);
      (CatBackup, INFO, BackupInputs caption (netology_group self));
      (CatBackup, INFO, Stage1); (ModuleLogger, INFO, ImageUrlObtained caption);
      (CatBackup, INFO, Stage2);
      (CatBackup, ERROR, CriticalError (NameError "YandexDiskUploader")) ].
Proof.
  intros Hq Hr Hcode out. subst out.
  unfold run_backup, run_backup_in. rewrite uploader_unbound.
  unfold get_cat_image_url, try_except, bind, lift, send, logmsg. simpl.
  rewrite Hq. simpl.
  destruct (serve E (net w) _) as [rep s']. simpl in Hr. subst rep. simpl.
  rewrite bool_decide_eq_true_2 by done. simpl.
  repeat split; try done.
  by rewrite <- !app_assoc.
Qed.

(** C9: when the image service answers the probe with a status other
    than 200, [run_backup] returns [False]; the list of uploads gets no
    new entry, no file is opened for writing and no file changes; the
    probe is the only request of the run. *)
Theorem run_backup_image_not_found self caption token (w : world S) q r :
  quote E caption = Ok q →
  fst (serve E (net w) (head_request (BASE_URL ++ lit "/cat/says/" ++ q))) = Answer r →
  status_code r ≠ 200 →
  let out := run_backup E self caption token w in
  fst out = Ok false ∧
  uploaded_files (snd out) = uploaded_files w ∧
  opened (snd out) = opened w ∧
  files (snd out) = files w ∧
  sent (snd out) = sent w ++ [head_request (BASE_URL ++ lit "/cat/says/" ++ q)].
Proof.
  intros Hq Hr Hcode out. subst out.
  unfold run_backup, run_backup_in.
  unfold get_cat_image_url, try_except, bind, lift, send, logmsg. simpl.
  rewrite Hq. simpl.
  destruct (serve E (net w) _) as [rep s']. simpl in Hr. subst rep. simpl.
  rewrite bool_decide_eq_false_2 by done. simpl. done.
Qed.

(** Writing the records: an [IOError] of the write is logged and the
    method returns normally. *)
Lemma save_to_json_swallows_io_error self (w : world S) e :
  write_file E (json_filename self) = Raise e →
  isinstance_IOError e = true →
  fst (_save_to_json E self w) = Ok ().
Proof.
  intros Hw He. unfold _save_to_json, try_except, bind, get_uploaded, dump_to, logmsg.
  simpl. destruct (uploaded_files w); simpl; [done|].
  rewrite Hw, He. done.
Qed.

End Run.

Lemma run_backup_image_not_found_witness :
  let w := start [ok_headers 404 ∅] in
  let out := run_backup (scripted (λ _, Ok ())) manager (lit "hi") (lit "secret") w in
  fst out = Ok false ∧
  uploaded_files (snd out) = uploaded_files w ∧
  opened (snd out) = opened w ∧
  files (snd out) = files w ∧
  sent (snd out) = sent w ++ [head_request (BASE_URL ++ lit "/cat/says/" ++ lit "hi")].
Proof.
  eapply (run_backup_image_not_found (scripted (λ _, Ok ()))).
  - reflexivity.
  - reflexivity.
  - simpl. lia.
Defined.

(** C10, on the code as it is: with both services favourable and a disk
    that refuses the write, the run returns [False]; it stops at the
    unbound name before any request to the storage service, and never
    gets to the write. *)
Theorem run_backup_write_failure_fails :
  let out := run_backup (scripted read_only) manager (lit "hi") (lit "secret")
               (start favourable) in
  fst out = Ok false ∧
  meth <$> sent (snd out) = [HEAD] ∧
  opened (snd out) = [] ∧
  List.last (log (snd out)) (CatBackup, INFO, Rule) =
    (CatBackup, ERROR, CriticalError (NameError "YandexDiskUploader")).
Proof. vm_compute. repeat split; reflexivity. Qed.

(** The same run with [YandexDiskUploader] bound to the client class:
    the upload goes through, the write is refused, the refusal is
    logged, and the run returns [True]. *)
Example run_backup_write_failure_with_uploader :
  let out := run_backup_in (scripted read_only) globals_with_uploader manager
               (lit "hi") (lit "secret") (start favourable) in
  fst out = Ok true ∧
  meth <$> sent (snd out) = [HEAD; GET; POST; HEAD] ∧
  opened (snd out) = [lit "backup_info_SPD-142.json"] ∧
  size_bytes <$> uploaded_files (snd out) = [48213] ∧
  (CatBackup, ERROR, SaveFailed OSError) ∈ log (snd out).
Proof.
  vm_compute. repeat split; try reflexivity.
  do 9 apply list_elem_of_further. apply list_elem_of_here.
Qed.

End BackupProps.

(** ** More on file names *)

Module FileNameMore.
Import Py FileName Frames.

Lemma replace_all_pointwise (l : list N) : ∀ t : str,
  underscore ∉ l →
  foldl (λ text char, replace char underscore text) t l =
  (λ c, if bool_decide (c ∈ l) then underscore else c) <$> t.
Proof.
  induction l as [|d l IH]; intros t Hu; simpl.
  - rewrite <- (list_fmap_id t) at 1. apply list_fmap_ext. intros i c _.
    done.
  - apply not_elem_of_cons in Hu as [Hud Hul].
    rewrite IH by done. unfold replace. rewrite <- list_fmap_compose.
    apply list_fmap_ext. intros i c _. simpl.
    destruct (decide (c = d)) as [->|Hcd].
    + rewrite (bool_decide_eq_false_2 (underscore ∈ l)) by done.
      rewrite bool_decide_eq_true_2; [done|]. apply list_elem_of_here.
    + destruct (decide (c ∈ l)) as [Hin|Hout].
      * rewrite !bool_decide_eq_true_2; [done| |done]. by apply list_elem_of_further.
      * rewrite !bool_decide_eq_false_2; [done| |done].
        intros [?|?]%elem_of_cons; done.
Qed.

Ltac as_map :=
  unfold _sanitize_filename, slice_to;
  rewrite !(replace_all_pointwise _ _ FileNameProps.underscore_valid);
  fold substitute.

(** X1: The loop of replacements is one pass over the text: the result is
    the first 100 characters, each forbidden one turned into an
    underscore and every other one kept where it was. *)
Theorem sanitize_pointwise (text : str) :
  _sanitize_filename text = take 100 (substitute <$> text).
Proof.
  unfold _sanitize_filename, slice_to.
  by rewrite (replace_all_pointwise _ _ FileNameProps.underscore_valid).
Qed.

Lemma substitute_valid c : c ∉ invalid_chars → substitute c = c.
Proof. intros H. unfold substitute. by rewrite bool_decide_eq_false_2. Qed.

(** X2: A caption of at most 100 characters, none of them forbidden, is its
    own sanitised form. *)
Theorem sanitize_unchanged (text : str) :
  (length text ≤ 100)%nat →
  (∀ c, c ∈ text → c ∉ invalid_chars) →
  _sanitize_filename text = text.
Proof.
  intros Hlen Hok. as_map.
  rewrite take_ge by (by rewrite length_fmap).
  rewrite <- (list_fmap_id text) at 2. apply list_fmap_ext.
  intros i c Hc. apply substitute_valid, Hok.
  apply list_elem_of_lookup. by exists i.
Qed.

Lemma sanitize_unchanged_witness :
  _sanitize_filename (lit "grumpy-cat_2") = lit "grumpy-cat_2".
Proof.
  apply sanitize_unchanged.
  - simpl. lia.
  - apply Forall_forall. apply (bool_decide_unpack _). vm_compute. exact I.
Defined.

(** X3: The file name has the caption's length, capped at 100, plus the four
    characters of the extension: never more than 104, and [.jpg] alone
    for an empty caption. *)
Theorem safe_filename_length (text : str) :
  length (safe_filename text) = (length text `min` 100 + 4)%nat.
Proof.
  unfold safe_filename. rewrite length_app. as_map.
  rewrite length_take, length_fmap.
  change (length (lit ".jpg")) with 4%nat. lia.
Qed.

(** X4: Two captions get the same file name exactly when their first 100
    characters agree once every forbidden character is read as an
    underscore: what comes after the 100th character, and which
    forbidden character stood where, is lost, and the later upload
    replaces the earlier. *)
Theorem safe_filename_equal_iff (t1 t2 : str) :
  safe_filename t1 = safe_filename t2 ↔
  take 100 (substitute <$> t1) = take 100 (substitute <$> t2).
Proof.
  unfold safe_filename. as_map. split.
  - by intros H%app_inv_tail.
  - by intros ->.
Qed.

End FileNameMore.

(** ** Laws of the monad: relations kept, exceptions not raised *)

Module MonadLaws.
Import Py PyVal World Frames.

Section Laws.
Context {S : Type} (E : env S).

Lemma same_local_refl : Reflexive (same_local (S:=S)).
Proof. by intros w. Qed.

Lemma same_local_trans : Transitive (same_local (S:=S)).
Proof.
  intros w1 w2 w3 (H1 & H2 & H3) (H4 & H5 & H6).
  unfold same_local. by rewrite H4, H5, H6.
Qed.

Lemma sent_only_refl P : Reflexive (sent_only (S:=S) P).
Proof. intros w. exists []. by rewrite app_nil_r. Qed.

Lemma sent_only_trans P : Transitive (sent_only (S:=S) P).
Proof.
  intros w1 w2 w3 (l1 & H1 & F1) (l2 & H2 & F2).
  exists (l1 ++ l2). rewrite H2, H1, app_assoc. split; [done|].
  by apply Forall_app.
Qed.

Context (R : world S → world S → Prop) (Hrefl : Reflexive R) (Htrans : Transitive R).

Lemma keeps_ret {A} (a : A) : keeps R (ret a).
Proof. intros w. simpl. reflexivity. Qed.

Lemma keeps_raise {A} e : keeps R (raise (A:=A) e).
Proof. intros w. simpl. reflexivity. Qed.

Lemma keeps_lift {A} (r : result A) : keeps R (lift r).
Proof. intros w. simpl. reflexivity. Qed.

Lemma keeps_bind {A B} (m : M A) (k : A → M B) :
  keeps R m → (∀ a, keeps R (k a)) → keeps R (bind m k).
Proof.
  intros Hm Hk w. unfold bind. specialize (Hm w).
  destruct (m w) as [[a|e] w1]; simpl in *; [|done].
  transitivity w1; [done|]. apply Hk.
Qed.

Lemma keeps_try {A} (m : M A) C (h : exn → M A) :
  keeps R m → (∀ e, keeps R (h e)) → keeps R (try_except m C h).
Proof.
  intros Hm Hh w. unfold try_except. specialize (Hm w).
  destruct (m w) as [[a|e] w1]; simpl in *; [done|].
  destruct (C e); [|done]. transitivity w1; [done|]. apply Hh.
Qed.

End Laws.

Section NoRaise.
Context {S : Type}.
Implicit Types C : exn → bool.

Lemma raises_no_ret {A} C (a : A) : raises_no (S:=S) C (ret a).
Proof. intros w e. done. Qed.

Lemma raises_no_bind {A B} C (m : M (S:=S) A) (k : A → M B) :
  raises_no C m → (∀ a, raises_no C (k a)) → raises_no C (bind m k).
Proof.
  intros Hm Hk w e. unfold bind. specialize (Hm w).
  destruct (m w) as [[a|e'] w1]; simpl in *.
  - apply Hk.
  - intros [= ->]. by apply Hm.
Qed.

(** A handler for [C] whose own code raises nothing of [C] lets
    nothing of [C] out. *)
Lemma raises_no_try {A} C (m : M (S:=S) A) (h : exn → M A) :
  (∀ e, raises_no C (h e)) → raises_no C (try_except m C h).
Proof.
  intros Hh w e. unfold try_except.
  destruct (m w) as [[a|e'] w1]; simpl; [done|].
  destruct (C e') eqn:HC.
  - apply Hh.
  - intros [= ->]. done.
Qed.

Lemma raises_no_logmsg C l lv msg : raises_no (S:=S) C (logmsg l lv msg).
Proof. intros w e. done. Qed.

End NoRaise.

Section Effects.
Context {S : Type} (E : env S).

Lemma send_local req : keeps same_local (send E req).
Proof.
  intros w. unfold send.
  destruct (serve E (net w) req) as [[r|e] s']; simpl; done.
Qed.

Lemma send_sent_only (P : request → Prop) req :
  P req → keeps (sent_only P) (send E req).
Proof.
  intros HP w. unfold send.
  destruct (serve E (net w) req) as [[r|e] s']; simpl;
    exists [req]; split; try done; by apply Forall_singleton.
Qed.

Lemma quiet_effects (R : world S → world S → Prop) :
  (∀ w w', sent w' = sent w → uploaded_files w' = uploaded_files w →
           opened w' = opened w → files w' = files w → R w w') →
  keeps R (sleep1 (S:=S)) ∧ (∀ n, keeps R (pbar_update (S:=S) n)) ∧
  (∀ l lv m, keeps R (logmsg (S:=S) l lv m)).
Proof. intros HR. repeat split; intros; intros w; by apply HR. Qed.

Lemma same_local_quiet (w w' : world S) :
  sent w' = sent w → uploaded_files w' = uploaded_files w →
  opened w' = opened w → files w' = files w → same_local w w'.
Proof. by intros _ ? ? ?. Qed.

Lemma sent_only_quiet P (w w' : world S) :
  sent w' = sent w → uploaded_files w' = uploaded_files w →
  opened w' = opened w → files w' = files w → sent_only P w w'.
Proof. intros Hs _ _ _. exists []. by rewrite app_nil_r. Qed.

End Effects.

(** The two relations are preorders; this closes the side goals of the
    laws. *)
Ltac rel :=
  first [ exact same_local_refl | exact same_local_trans
        | apply sent_only_refl | apply sent_only_trans ].

End MonadLaws.

(** ** More on the storage client *)

Module StorageMore.
Import Py PyVal World Remotes YandexDiskClient Reports Frames MonadLaws.

(** One step in the proof that a method keeps a relation: through the
    monad's operations and the tests of the source. *)
Ltac keeps_step :=
  lazymatch goal with
  | |- keeps _ (try_except _ _ _) => apply keeps_try; [rel..| |intros ?]
  | |- keeps _ (bind _ _) => apply keeps_bind; [rel..| |intros ?]
  | |- keeps _ (ret _) => apply keeps_ret; rel
  | |- keeps _ (raise _) => apply keeps_raise; rel
  | |- keeps _ (lift _) => apply keeps_lift; rel
  | |- keeps _ (if ?b then _ else _) => destruct b
  | |- keeps _ (match ?x with _ => _ end) => destruct x
  end.

Ltac raises_no_step :=
  lazymatch goal with
  | |- raises_no _ (try_except _ _ _) => apply raises_no_try; intros ?
  | |- raises_no _ (bind _ _) => apply raises_no_bind; [|intros ?]
  | |- raises_no _ (ret _) => apply raises_no_ret
  | |- raises_no _ (logmsg _ _ _) => apply raises_no_logmsg
  | |- raises_no _ (if ?b then _ else _) => destruct b
  | |- raises_no _ (match ?x with _ => _ end) => destruct x
  end.

Section Client.
Context {S : Type} (E : env S).

Ltac local_quiet :=
  first [ apply send_local
        | apply (quiet_effects same_local same_local_quiet) ].

Lemma create_folder_local self path : keeps same_local (create_folder E self path).
Proof. unfold create_folder. repeat keeps_step; local_quiet. Qed.

Lemma poll_once_local self op name last :
  keeps same_local (poll_once E self op name last).
Proof. unfold poll_once. repeat keeps_step; local_quiet. Qed.

Lemma poll_loop_local self op name n : ∀ last,
  keeps same_local (poll_loop E n self op name last).
Proof.
  induction n as [|n IH]; intros last; simpl.
  - apply keeps_ret; rel.
  - apply keeps_bind; [rel..|apply poll_once_local|]. intros [b|p].
    + apply keeps_ret; rel.
    + apply IH.
Qed.

Lemma check_upload_status_local self op name :
  keeps same_local (_check_upload_status E self op name).
Proof.
  unfold _check_upload_status.
  apply keeps_bind; [rel..|apply poll_loop_local|]. intros ?.
  repeat keeps_step; local_quiet.
Qed.

Lemma upload_by_url_local self file_url save_path :
  keeps same_local (upload_by_url E self file_url save_path).
Proof.
  unfold upload_by_url.
  repeat (first [apply check_upload_status_local | keeps_step]); local_quiet.
Qed.

Lemma poll_loop_contains self op name n : ∀ last,
  raises_no isinstance_RequestException (poll_loop E n self op name last).
Proof.
  induction n as [|n IH]; intros last; simpl.
  - apply raises_no_ret.
  - apply raises_no_bind.
    + unfold poll_once. repeat raises_no_step.
    + intros [b|p]; [apply raises_no_ret|apply IH].
Qed.

Lemma clients_contain_request_errors_aux self (a b : str) :
  raises_no isinstance_RequestException (_check_upload_status E self a b).
Proof.
  unfold _check_upload_status. apply raises_no_bind.
  - apply poll_loop_contains.
  - intros [?|]; repeat raises_no_step.
Qed.

(** X5: No method of the two clients lets a [RequestException] out: each
    turns it into its failure value. *)
Theorem clients_contain_request_errors self (a b : str) :
  raises_no isinstance_RequestException (create_folder E self a) ∧
  raises_no isinstance_RequestException (upload_by_url E self a b) ∧
  raises_no isinstance_RequestException (_check_upload_status E self a b) ∧
  raises_no isinstance_RequestException (CataasClient.get_cat_image_url E a).
Proof.
  repeat split.
  - unfold create_folder. repeat raises_no_step.
  - unfold upload_by_url. repeat raises_no_step.
  - apply clients_contain_request_errors_aux.
  - unfold CataasClient.get_cat_image_url. repeat raises_no_step.
Qed.

(** *** What one iteration does, whatever the answer *)

Ltac run_poll_once :=
  unfold poll_once, try_except, bind, send, lift, pbar_update, logmsg, sleep1,
    ret, raise.

Lemma poll_once_shape self op name last (w : world S) :
  let out := poll_once E self op name last w in
  sent (snd out) = sent w ++ [status_request self op] ∧
  (slept w ≤ slept (snd out) ≤ slept w + 1)%nat ∧
  net (snd out) = snd (serve E (net w) (status_request self op)).
Proof.
  intros out. subst out. run_poll_once.
  destruct (serve E (net w) (status_request self op)) as [[r|e] s']; simpl.
  all: repeat case_match; simplify_eq/=; repeat split; done || lia.
Qed.

Lemma poll_loop_shape self op name n : ∀ last (w : world S),
  let out := poll_loop E n self op name last w in
  ∃ k, (k ≤ n)%nat ∧ (n = 0%nat ∨ 1 ≤ k)%nat ∧
       sent (snd out) = sent w ++ replicate k (status_request self op) ∧
       (slept w ≤ slept (snd out) ≤ slept w + k)%nat.
Proof.
  induction n as [|n IH]; intros last w out; subst out; simpl.
  - exists 0%nat. simpl. rewrite app_nil_r. repeat split; auto; lia.
  - unfold bind.
    pose proof (poll_once_shape self op name last w) as (Hs & Hsl & _).
    destruct (poll_once E self op name last w) as [[[b|p]|e] w1]; simpl in *.
    + exists 1%nat. simpl. repeat split; auto; lia.
    + destruct (IH p w1) as (k & Hk & _ & Hs' & Hsl').
      exists (Datatypes.S k). rewrite Hs', Hs, <- app_assoc. simpl.
      repeat split; auto; lia.
    + exists 1%nat. simpl. repeat split; auto; lia.
Qed.

(** X6: Whatever the remote answers, polling sends between one and thirty
    requests, all of them the same status request, and sleeps at most
    one second per request. *)
Theorem poll_sends_at_most_30 self op name (w : world S) :
  let out := _check_upload_status E self op name w in
  ∃ k, (1 ≤ k ≤ 30)%nat ∧
       sent (snd out) = sent w ++ replicate k (status_request self op) ∧
       (slept w ≤ slept (snd out) ≤ slept w + k)%nat.
Proof.
  intros out. subst out. unfold _check_upload_status, bind.
  destruct (poll_loop_shape self op name 30 0 w) as (k & Hk & Hk1 & Hs & Hsl).
  destruct (poll_loop E 30 self op name 0 w) as [[[b|]|e] w1]; simpl in *;
    exists k; repeat split; auto; destruct Hk1; lia.
Qed.

Lemma bar_total_snoc l x : bar_total (l ++ [x]) = bar_total l + x.
Proof. unfold bar_total. induction l as [|y l IH]; simpl; lia. Qed.

(** What the outcome of an iteration tells about the answer it got, and
    where it leaves the progress bar. *)
Lemma poll_once_inv self op name last (w : world S) :
  match poll_once E self op name last w with
  | (Ok (Continue p), w') =>
      (∃ r, fst (serve E (net w) (status_request self op)) = Answer r ∧
            reports_pending r = true) ∧
      bar_total (pbar w') - p = bar_total (pbar w) - last
  | (Ok (Return true), w') =>
      (∃ r, fst (serve E (net w) (status_request self op)) = Answer r ∧
            reports_success r = true) ∧
      bar_total (pbar w') = bar_total (pbar w) + (100 - last)
  | _ => True
  end.
Proof.
  run_poll_once.
  destruct (serve E (net w) (status_request self op)) as [[r|e] s']; simpl.
  - destruct (raise_for_status r) as [[]|e] eqn:Hrs; simpl.
    + destruct (json r) as [[| | | | |d]|e] eqn:Hjs; simpl;
        try (repeat case_match; simplify_eq/=; done).
      destruct (py_eq_str (default PyNone (d !! lit "status")) (lit "success")) eqn:Hs; simpl.
      { split; [|rewrite bar_total_snoc; lia].
        exists r. split; [done|]. unfold reports_success, status_body.
        by rewrite Hrs, Hjs. }
      destruct (py_eq_str (default PyNone (d !! lit "status")) (lit "in-progress")) eqn:Hp; simpl.
      { destruct (py_num (default (PyInt 0) (d !! lit "progress"))) as [p|] eqn:Hn; simpl; [|done].
        split; [|rewrite bar_total_snoc; lia].
        exists r. split; [done|]. unfold reports_pending, status_body.
        rewrite Hrs, Hjs. simpl. rewrite Hs, Hp, Hn. simpl.
        destruct (py_eq_str (default PyNone (d !! lit "status")) (lit "failed")) eqn:Hf.
        - exfalso. destruct (default PyNone (d !! lit "status")); simpl in *; try done.
          apply bool_decide_eq_true in Hp, Hf. subst. done.
        - done. }
      destruct (py_eq_str (default PyNone (d !! lit "status")) (lit "failed")) eqn:Hf; simpl; [done|].
      split; [|done]. exists r. split; [done|]. unfold reports_pending, status_body.
      by rewrite Hrs, Hjs, Hs, Hp, Hf.
    + by destruct (isinstance_RequestException e).
  - by destruct (isinstance_RequestException e).
Qed.

Lemma poll_loop_true self op name n : ∀ last (w w' : world S),
  poll_loop E n self op name last w = (Ok (Some true), w') →
  (∃ k r, (k < n)%nat ∧
          pending_for E k (net w) (status_request self op) = true ∧
          fst (serve E (after E k (net w) (status_request self op))
                 (status_request self op)) = Answer r ∧
          reports_success r = true) ∧
  bar_total (pbar w') = bar_total (pbar w) + (100 - last).
Proof.
  induction n as [|n IH]; intros last w w'; simpl; [done|].
  unfold bind.
  pose proof (poll_once_inv self op name last w) as Hinv.
  pose proof (poll_once_shape self op name last w) as (_ & _ & Hnet).
  destruct (poll_once E self op name last w) as [[[b|p]|e] w1]; simpl in *; [| |done].
  - intros [= -> ->]. destruct Hinv as [(r & Hr & Hsucc) Hbar]. split; [|done].
    exists 0%nat, r. simpl. repeat split; auto; lia.
  - intros Hloop. destruct (IH _ _ _ Hloop) as [(k & r & Hk & Hpend & Hr & Hsucc) Hbar].
    destruct Hinv as [(r1 & Hr1 & Hpend1) Hbar1]. split; [|lia].
    exists (Datatypes.S k), r. simpl. rewrite Hr1, Hpend1, <- Hnet. simpl.
    repeat split; auto; lia.
Qed.

Lemma check_true_inv self op name (w : world S) :
  fst (_check_upload_status E self op name w) = Ok true →
  ∃ w', poll_loop E 30 self op name 0 w = (Ok (Some true), w') ∧
        pbar (snd (_check_upload_status E self op name w)) = pbar w'.
Proof.
  unfold _check_upload_status, bind.
  destruct (poll_loop E 30 self op name 0 w) as [[[[]|]|e] w1]; simpl; try done.
  intros _. by exists w1.
Qed.

(** X7: Polling returns [True] only on a success report that follows
    nothing but pending reports: with C4, exactly then. *)
Theorem poll_true_only_on_success self op name (w : world S) :
  fst (_check_upload_status E self op name w) = Ok true →
  ∃ k r, (k < 30)%nat ∧
         pending_for E k (net w) (status_request self op) = true ∧
         fst (serve E (after E k (net w) (status_request self op))
                (status_request self op)) = Answer r ∧
         reports_success r = true.
Proof.
  intros H. destruct (check_true_inv self op name w H) as (w' & Hloop & _).
  by destruct (poll_loop_true self op name 30 0 w w' Hloop) as [Hex _].
Qed.

(** X8: Whenever polling returns [True], the increments given to the
    progress bar add up to exactly 100, whichever integers were reported
    as progress on the way.  (Progress is an integer here, as the
    service documents it: the decoded values have no numbers with a
    fraction.) *)
Theorem poll_true_fills_bar self op name (w : world S) :
  fst (_check_upload_status E self op name w) = Ok true →
  bar_total (pbar (snd (_check_upload_status E self op name w))) =
  bar_total (pbar w) + 100.
Proof.
  intros H. destruct (check_true_inv self op name w H) as (w' & Hloop & ->).
  destruct (poll_loop_true self op name 30 0 w w' Hloop) as [_ Hbar]. lia.
Qed.

End Client.

Lemma poll_true_only_on_success_witness :
  ∃ k r, (k < 30)%nat ∧
         pending_for (scripted (λ _, Ok ())) k [in_progress 40; success_odd]
           (status_request client (lit "op7")) = true ∧
         fst (serve (scripted (λ _, Ok ()))
                (after (scripted (λ _, Ok ())) k [in_progress 40; success_odd]
                   (status_request client (lit "op7")))
                (status_request client (lit "op7"))) = Answer r ∧
         reports_success r = true.
Proof.
  apply (poll_true_only_on_success (scripted (λ _, Ok ())) client (lit "op7") (lit "f.jpg")
           (start [in_progress 40; success_odd])).
  vm_compute. reflexivity.
Defined.

Lemma poll_true_fills_bar_witness :
  let w := start [in_progress 40; in_progress 25; queued; success_odd] in
  bar_total (pbar (snd (_check_upload_status (scripted (λ _, Ok ())) client
                          (lit "op7") (lit "f.jpg") w))) =
  bar_total (pbar w) + 100.
Proof. apply poll_true_fills_bar. vm_compute. reflexivity. Defined.

End StorageMore.

(** ** How polling, uploading and folder creation fail *)

Module StorageErrors.
Import Py PyVal World Remotes Answers YandexDiskClient Reports Frames MonadLaws.

Section Client.
Context {S : Type} (E : env S).

(** After [k < 30] pending reports the loop stands before iteration
    [k + 1], and the method ends as that iteration ends. *)
Lemma poll_reaches self op name (k : nat) (w : world S) :
  (k < 30)%nat →
  pending_for E k (net w) (status_request self op) = true →
  ∃ last' w',
    net w' = after E k (net w) (status_request self op) ∧
    sent w' = sent w ++ replicate k (status_request self op) ∧
    slept w' = (slept w + k)%nat ∧ log w' = log w ∧
    (∀ b w2, poll_once E self op name last' w' = (Ok (Return b), w2) →
             _check_upload_status E self op name w = (Ok b, w2)) ∧
    (∀ e w2, poll_once E self op name last' w' = (Raise e, w2) →
             _check_upload_status E self op name w = (Raise e, w2)).
Proof.
  intros Hk Hpend.
  destruct (StorageProps.poll_loop_pending E self op name k (30 - k) 0 w Hpend)
    as (last' & w' & Hloop & Hnet & Hsent & Hslept & Hlog & _).
  exists last', w'. repeat split; try done.
  - intros b w2 Hstep. unfold _check_upload_status, bind.
    replace 30%nat with (k + (30 - k))%nat at 1 by lia. rewrite Hloop.
    destruct (30 - k)%nat as [|m] eqn:Hm; [lia|].
    simpl. unfold bind. by rewrite Hstep.
  - intros e w2 Hstep. unfold _check_upload_status, bind.
    replace 30%nat with (k + (30 - k))%nat at 1 by lia. rewrite Hloop.
    destruct (30 - k)%nat as [|m] eqn:Hm; [lia|].
    simpl. unfold bind. by rewrite Hstep.
Qed.

Ltac run_once :=
  unfold poll_once, try_except, bind, send, lift, pbar_update, logmsg, sleep1,
    ret, raise.

(** X9: A [failed] report ends polling at once with [False]; the remote's
    message goes to the log. *)
Theorem poll_failed_report self op name (k : nat) (w : world S) r d :
  (k < 30)%nat →
  pending_for E k (net w) (status_request self op) = true →
  fst (serve E (after E k (net w) (status_request self op)) (status_request self op))
    = Answer r →
  status_body r = Some d →
  d !! lit "status" = Some (PyStr (lit "failed")) →
  let out := _check_upload_status E self op name w in
  fst out = Ok false ∧
  sent (snd out) = sent w ++ replicate (Datatypes.S k) (status_request self op) ∧
  slept (snd out) = (slept w + k)%nat ∧
  log (snd out) = log w ++
    [(ModuleLogger, ERROR, UploadFailed (default PyNone (d !! lit "message")))].
Proof.
  intros Hk Hpend Hr Hbody Hst out.
  destruct (poll_reaches self op name k w Hk Hpend)
    as (last' & w' & Hnet & Hsent & Hslept & Hlog & Hret & _).
  rewrite <- Hnet in Hr. subst out.
  assert (∃ w2, poll_once E self op name last' w' = (Ok (Return false), w2) ∧
                sent w2 = sent w' ++ [status_request self op] ∧ slept w2 = slept w' ∧
                log w2 = log w' ++
                  [(ModuleLogger, ERROR, UploadFailed (default PyNone (d !! lit "message")))])
    as (w2 & Hstep & Hs2 & Hsl2 & Hl2).
  { run_once. destruct (serve E (net w') (status_request self op)) as [rep s'].
    simpl in Hr. subst rep. simpl. unfold status_body in Hbody.
    destruct (raise_for_status r) as [[]|]; [|done].
    destruct (json r) as [[| | | | |d']|]; try done. simplify_eq/=.
    rewrite Hst. simpl. by eexists. }
  erewrite Hret by exact Hstep. simpl.
  rewrite Hs2, Hsl2, Hl2, Hsent, Hslept, Hlog, <- app_assoc, <- replicate_S_end. done.
Qed.

(** X10: When a status request cannot be read (the transport raises, the
    status is 4xx or 5xx, or the body does not decode), polling ends at
    once: with [False] and a log entry when the exception is a
    [RequestException], with the exception itself otherwise.  It does
    not ask again. *)
Theorem poll_request_error self op name (k : nat) (w : world S) e :
  (k < 30)%nat →
  pending_for E k (net w) (status_request self op) = true →
  reading_raises
    (fst (serve E (after E k (net w) (status_request self op)) (status_request self op)))
    = Some e →
  let out := _check_upload_status E self op name w in
  fst out = (if isinstance_RequestException e then Ok false else Raise e) ∧
  sent (snd out) = sent w ++ replicate (Datatypes.S k) (status_request self op) ∧
  slept (snd out) = (slept w + k)%nat ∧
  log (snd out) = log w ++
    (if isinstance_RequestException e
     then [(ModuleLogger, ERROR, StatusCheckFailed e)] else []).
Proof.
  intros Hk Hpend Hr out.
  destruct (poll_reaches self op name k w Hk Hpend)
    as (last' & w' & Hnet & Hsent & Hslept & Hlog & Hret & Hraise).
  rewrite <- Hnet in Hr. subst out.
  assert (∃ w2, poll_once E self op name last' w' =
                  (if isinstance_RequestException e then Ok (Return false) else Raise e, w2) ∧
                sent w2 = sent w' ++ [status_request self op] ∧ slept w2 = slept w' ∧
                log w2 = log w' ++
                  (if isinstance_RequestException e
                   then [(ModuleLogger, ERROR, StatusCheckFailed e)] else []))
    as (w2 & Hstep & Hs2 & Hsl2 & Hl2).
  { run_once. destruct (serve E (net w') (status_request self op)) as [[r|e'] s'].
    - simpl in *. destruct (raise_for_status r) as [[]|e1]; simpl in *.
      + destruct (json r) as [b|e2]; [done|]. simplify_eq/=.
        destruct (isinstance_RequestException e); simpl; eexists; split; try done;
          by rewrite ?app_nil_r.
      + simplify_eq/=.
        destruct (isinstance_RequestException e); simpl; eexists; split; try done;
          by rewrite ?app_nil_r.
    - simpl in *. simplify_eq/=.
      destruct (isinstance_RequestException e); simpl; eexists; split; try done;
        by rewrite ?app_nil_r. }
  destruct (isinstance_RequestException e).
  - erewrite Hret by exact Hstep. simpl.
    rewrite Hs2, Hsl2, Hl2, Hsent, Hslept, Hlog, <- app_assoc, <- replicate_S_end. done.
  - erewrite Hraise by exact Hstep. simpl.
    rewrite Hs2, Hsl2, Hl2, Hsent, Hslept, Hlog, <- app_assoc, <- replicate_S_end. done.
Qed.

(** X11: An [in-progress] report whose progress is not a number ([None],
    a string, a list or an object) makes the subtraction fail: polling
    raises [TypeError], which none of the client's handlers catches. *)
Theorem poll_bad_progress self op name (k : nat) (w : world S) r :
  (k < 30)%nat →
  pending_for E k (net w) (status_request self op) = true →
  fst (serve E (after E k (net w) (status_request self op)) (status_request self op))
    = Answer r →
  reports_bad_progress r = true →
  let out := _check_upload_status E self op name w in
  fst out = Raise TypeError ∧
  sent (snd out) = sent w ++ replicate (Datatypes.S k) (status_request self op).
Proof.
  intros Hk Hpend Hr Hbad out.
  destruct (poll_reaches self op name k w Hk Hpend)
    as (last' & w' & Hnet & Hsent & Hslept & Hlog & _ & Hraise).
  rewrite <- Hnet in Hr. subst out.
  assert (∃ w2, poll_once E self op name last' w' = (Raise TypeError, w2) ∧
                sent w2 = sent w' ++ [status_request self op])
    as (w2 & Hstep & Hs2).
  { run_once. destruct (serve E (net w') (status_request self op)) as [rep s'].
    simpl in Hr. subst rep. simpl. unfold reports_bad_progress, status_body in Hbad.
    destruct (raise_for_status r) as [[]|]; [|done].
    destruct (json r) as [[| | | | |d']|]; try done. simpl in *.
    apply andb_prop in Hbad as [Hip Hnum]. apply bool_decide_eq_true in Hnum.
    assert (py_eq_str (default PyNone (d' !! lit "status")) (lit "success") = false) as ->.
    { destruct (default PyNone (d' !! lit "status")); simpl in *; try done.
      apply bool_decide_eq_true in Hip. subst. done. }
    rewrite Hip, Hnum. simpl. by eexists. }
  erewrite Hraise by exact Hstep. simpl.
  by rewrite Hs2, Hsent, <- app_assoc, <- replicate_S_end.
Qed.

(** *** Folder creation *)

Ltac run_create :=
  unfold create_folder, try_except, bind, send, lift, logmsg, ret.

(** X12: A folder that is not there is created: when the probe answers
    anything but 200 and the creation request is answered 201 or 409,
    the call returns [True] after these two requests. *)
Theorem create_folder_creates self path (w : world S) r1 r2 :
  fst (serve E (net w) (probe_request self path)) = Answer r1 →
  status_code r1 ≠ 200 →
  fst (serve E (snd (serve E (net w) (probe_request self path)))
         (mkdir_request self path)) = Answer r2 →
  status_code r2 ∈ [201; 409] →
  let out := create_folder E self path w in
  fst out = Ok true ∧
  sent (snd out) = sent w ++ [probe_request self path; mkdir_request self path] ∧
  log (snd out) = log w ++ [(ModuleLogger, INFO, FolderCreated path)].
Proof.
  intros H1 Hc1 H2 Hc2 out. subst out. run_create.
  destruct (serve E (net w) (probe_request self path)) as [rep1 s1].
  simpl in *. subst rep1. simpl. rewrite bool_decide_eq_false_2 by done. simpl.
  destruct (serve E s1 (mkdir_request self path)) as [rep2 s2].
  simpl in *. subst rep2. simpl. rewrite bool_decide_eq_true_2 by done. simpl.
  by rewrite <- app_assoc.
Qed.

(** X13: The call returns [True] only when the remote said that the folder
    is there (200 to the probe) or that it was made or already there
    (201 or 409 to the creation request). *)
Theorem create_folder_true_only_if self path (w : world S) :
  fst (create_folder E self path w) = Ok true →
  answer_code E (net w) (probe_request self path) = Some 200 ∨
  ∃ c, answer_code E (snd (serve E (net w) (probe_request self path)))
         (mkdir_request self path) = Some c ∧ c ∈ [201; 409].
Proof.
  run_create. unfold answer_code.
  destruct (serve E (net w) (probe_request self path)) as [[r1|e1] s1]; simpl.
  - case_bool_decide as Hc1; simpl; [intros _; left; by rewrite Hc1|].
    destruct (serve E s1 (mkdir_request self path)) as [[r2|e2] s2]; simpl.
    + case_bool_decide as Hc2; simpl; [intros _; right; by eexists|].
      destruct (json r2) as [b|e]; simpl; [done|].
      by destruct (isinstance_RequestException e).
    + by destruct (isinstance_RequestException e2).
  - by destruct (isinstance_RequestException e1).
Qed.

(** X14: A refused creation whose body does not decode: building the log
    message raises, and unless the error is a [RequestException] the
    call raises it instead of returning [False]. *)
Theorem create_folder_refusal_undecodable self path (w : world S) r1 r2 e :
  fst (serve E (net w) (probe_request self path)) = Answer r1 →
  status_code r1 ≠ 200 →
  fst (serve E (snd (serve E (net w) (probe_request self path)))
         (mkdir_request self path)) = Answer r2 →
  status_code r2 ∉ [201; 409] →
  json r2 = Raise e →
  fst (create_folder E self path w) =
    (if isinstance_RequestException e then Ok false else Raise e).
Proof.
  intros H1 Hc1 H2 Hc2 Hjs. run_create.
  destruct (serve E (net w) (probe_request self path)) as [rep1 s1].
  simpl in *. subst rep1. simpl. rewrite bool_decide_eq_false_2 by done. simpl.
  destruct (serve E s1 (mkdir_request self path)) as [rep2 s2].
  simpl in *. subst rep2. simpl. rewrite bool_decide_eq_false_2 by done. simpl.
  rewrite Hjs. simpl. by destruct (isinstance_RequestException e).
Qed.

(** *** Upload by URL *)

Ltac run_upload :=
  unfold upload_by_url, try_except, bind, send, lift, logmsg, ret.

(** X16: When the upload request cannot be read (the transport raises, the
    status is 4xx or 5xx, or the body does not decode), nothing is
    polled: the call returns [False] for a [RequestException] and lets
    any other exception through. *)
Theorem upload_unreadable self file_url save_path (w : world S) e :
  reading_raises (fst (serve E (net w) (upload_request self file_url save_path))) = Some e →
  let out := upload_by_url E self file_url save_path w in
  fst out = (if isinstance_RequestException e then Ok false else Raise e) ∧
  sent (snd out) = sent w ++ [upload_request self file_url save_path] ∧
  slept (snd out) = slept w.
Proof.
  intros H out. subst out. run_upload. simpl.
  destruct (serve E (net w) (upload_request self file_url save_path)) as [[r|e'] s'];
    simpl in *.
  - destruct (raise_for_status r) as [[]|e1]; simpl in *.
    + destruct (json r) as [b|e2]; [done|]. simplify_eq/=.
      by destruct (isinstance_RequestException e).
    + simplify_eq/=. by destruct (isinstance_RequestException e).
  - simplify_eq/=. by destruct (isinstance_RequestException e).
Qed.

Lemma upload_then_polls_aux self file_url save_path (w : world S) r body id :
  fst (serve E (net w) (upload_request self file_url save_path)) = Answer r →
  raise_for_status r = Ok () →
  json r = Ok body →
  operation_id_of body = Ok id →
  id ≠ [] →
  upload_by_url E self file_url save_path w =
  _check_upload_status E self id save_path
    {| net := snd (serve E (net w) (upload_request self file_url save_path));
       sent := sent w ++ [upload_request self file_url save_path];
       slept := slept w; pbar := pbar w;
       log := log w ++ [(ModuleLogger, INFO, UploadStarts save_path)];
       opened := opened w; files := files w;
       uploaded_files := uploaded_files w |}.
Proof.
  intros Hr Hst Hjs Hid Hne.
  pose proof (StorageMore.clients_contain_request_errors_aux E self id save_path) as Hno.
  run_upload. simpl.
  destruct (serve E (net w) (upload_request self file_url save_path)) as [rep s'].
  simpl in *. subst rep. simpl. rewrite Hst, Hjs, Hid. simpl.
  rewrite bool_decide_eq_true_2 by done.
  match goal with |- context [_check_upload_status E self id save_path ?w1] =>
    specialize (Hno w1); destruct (_check_upload_status E self id save_path w1) as [[b|e] w2]
  end; simpl in *; [done|].
  by rewrite (Hno e eq_refl).
Qed.

(** X17: With an identifier in the response, uploading is polling: the call
    ends exactly as [_check_upload_status] ends on that identifier, in
    the world the upload request left. *)
Theorem upload_then_polls self file_url save_path (w : world S) r body id :
  fst (serve E (net w) (upload_request self file_url save_path)) = Answer r →
  raise_for_status r = Ok () →
  json r = Ok body →
  operation_id_of body = Ok id →
  id ≠ [] →
  upload_by_url E self file_url save_path w =
  _check_upload_status E self id save_path
    {| net := snd (serve E (net w) (upload_request self file_url save_path));
       sent := sent w ++ [upload_request self file_url save_path];
       slept := slept w; pbar := pbar w;
       log := log w ++ [(ModuleLogger, INFO, UploadStarts save_path)];
       opened := opened w; files := files w;
       uploaded_files := uploaded_files w |}.
Proof. apply upload_then_polls_aux. Qed.

Lemma occurs_false (sep : str) : ∀ s : str,
  occurs sep s = false → ∀ t, t `suffix_of` s → ¬ sep `prefix_of` t.
Proof.
  induction s as [|c s IH]; simpl; intros Hocc t Ht Hpre.
  - apply suffix_nil_inv in Ht as ->. apply prefix_nil_inv in Hpre as ->.
    by rewrite bool_decide_eq_true_2 in Hocc.
  - apply orb_false_iff in Hocc as [Hhere Hrest].
    apply bool_decide_eq_false in Hhere.
    destruct t as [|x t'].
    + apply prefix_nil_inv in Hpre as ->. apply Hhere, prefix_nil.
    + apply suffix_cons_inv in Ht as [Heq|Ht]; [by rewrite Heq in Hpre|by eapply IH].
Qed.

(** X18: A reference that does not contain the marker [operation_id=] is
    used whole as the identifier: the status requests go to the
    operations address followed by the entire reference. *)
Theorem upload_polls_whole_reference self file_url save_path (w : world S) r d (href : str) :
  fst (serve E (net w) (upload_request self file_url save_path)) = Answer r →
  raise_for_status r = Ok () →
  json r = Ok (PyDict d) →
  d !! lit "href" = Some (PyStr href) →
  href ≠ [] →
  occurs (lit "operation_id=") href = false →
  let out := upload_by_url E self file_url save_path w in
  ∃ k, (1 ≤ k ≤ 30)%nat ∧
       sent (snd out) = sent w ++ upload_request self file_url save_path ::
                        replicate k (status_request self href).
Proof.
  intros Hr Hst Hjs Hd Hne Hno out. subst out.
  rewrite (upload_then_polls_aux self file_url save_path w r (PyDict d) href);
    try done;
    [|apply StorageProps.operation_id_of_no_marker; [done|by apply occurs_false]].
  unfold _check_upload_status, bind.
  match goal with |- context [poll_loop E 30 self href save_path 0 ?w1] =>
    destruct (StorageMore.poll_loop_shape E self href save_path 30 0 w1)
      as (k & Hk & [?|Hk1] & Hs & _); [done|];
    destruct (poll_loop E 30 self href save_path 0 w1) as [[[b|]|e] w2]
  end; simpl in *; exists k; (split; [lia|]); rewrite Hs; simpl; by rewrite <- app_assoc.
Qed.

End Client.

(** *** The theorems on concrete remotes *)

Lemma poll_failed_report_witness :
  let w := start [in_progress 10; failed_report] in
  let out := _check_upload_status plain client (lit "op7") (lit "f.jpg") w in
  fst out = Ok false ∧
  sent (snd out) = sent w ++ replicate 2 (status_request client (lit "op7")) ∧
  slept (snd out) = (slept w + 1)%nat ∧
  log (snd out) = log w ++
    [(ModuleLogger, ERROR, UploadFailed (default PyNone (failed_body !! lit "message")))].
Proof.
  eapply (poll_failed_report plain client (lit "op7") (lit "f.jpg") 1 _ _ failed_body);
    try reflexivity. lia.
Defined.

Lemma poll_request_error_witness :
  let w := start [in_progress 10; unavailable; success_odd] in
  let out := _check_upload_status plain client (lit "op7") (lit "f.jpg") w in
  fst out = Ok false ∧
  sent (snd out) = sent w ++ replicate 2 (status_request client (lit "op7")) ∧
  slept (snd out) = (slept w + 1)%nat ∧
  log (snd out) = log w ++ [(ModuleLogger, ERROR, StatusCheckFailed HTTPError)].
Proof.
  eapply (poll_request_error plain client (lit "op7") (lit "f.jpg") 1 _ HTTPError);
    try reflexivity. lia.
Defined.

Lemma poll_bad_progress_witness :
  let w := start [bad_progress_report] in
  let out := _check_upload_status plain client (lit "op7") (lit "f.jpg") w in
  fst out = Raise TypeError ∧
  sent (snd out) = sent w ++ replicate 1 (status_request client (lit "op7")).
Proof.
  eapply (poll_bad_progress plain client (lit "op7") (lit "f.jpg") 0); try reflexivity. lia.
Defined.

Lemma create_folder_creates_witness :
  let w := start [not_found; conflict] in
  let out := create_folder plain client (lit "SPD-142") w in
  fst out = Ok true ∧
  sent (snd out) = sent w ++ [probe_request client (lit "SPD-142");
                               mkdir_request client (lit "SPD-142")] ∧
  log (snd out) = log w ++ [(ModuleLogger, INFO, FolderCreated (lit "SPD-142"))].
Proof.
  eapply (create_folder_creates plain).
  - reflexivity.
  - simpl. lia.
  - reflexivity.
  - apply (bool_decide_unpack _). vm_compute. exact I.
Defined.

Lemma create_folder_true_only_if_witness :
  answer_code folder_store (net (start (∅ : gset str)))
    (probe_request client (lit "SPD-142")) = Some 200 ∨
  ∃ c, answer_code folder_store
         (snd (serve folder_store (net (start (∅ : gset str)))
                 (probe_request client (lit "SPD-142"))))
         (mkdir_request client (lit "SPD-142")) = Some c ∧ c ∈ [201; 409].
Proof. apply create_folder_true_only_if. vm_compute. reflexivity. Defined.

Lemma create_folder_refusal_undecodable_witness :
  fst (create_folder plain client (lit "SPD-142")
         (start [not_found; ok_headers 500 ∅])) = Raise ValueError.
Proof.
  eapply (create_folder_refusal_undecodable plain client (lit "SPD-142") _ _ _ ValueError).
  - reflexivity.
  - simpl. lia.
  - reflexivity.
  - apply (bool_decide_unpack _). vm_compute. exact I.
  - reflexivity.
Defined.

Lemma upload_unreadable_witness :
  let w := start [unavailable; success_odd] in
  let out := upload_by_url plain client (lit "u") (lit "SPD-142/hi.jpg") w in
  fst out = Ok false ∧
  sent (snd out) = sent w ++ [upload_request client (lit "u") (lit "SPD-142/hi.jpg")] ∧
  slept (snd out) = slept w.
Proof.
  apply (upload_unreadable plain client (lit "u") (lit "SPD-142/hi.jpg") _ HTTPError).
  reflexivity.
Defined.

Lemma upload_then_polls_witness :
  let w := start [accepted "https://host/v1/disk/operations?operation_id=77"; success_odd] in
  upload_by_url plain client (lit "u") (lit "SPD-142/hi.jpg") w =
  _check_upload_status plain client (lit "77") (lit "SPD-142/hi.jpg")
    {| net := snd (serve plain (net w) (upload_request client (lit "u") (lit "SPD-142/hi.jpg")));
       sent := sent w ++ [upload_request client (lit "u") (lit "SPD-142/hi.jpg")];
       slept := slept w; pbar := pbar w;
       log := log w ++ [(ModuleLogger, INFO, UploadStarts (lit "SPD-142/hi.jpg"))];
       opened := opened w; files := files w;
       uploaded_files := uploaded_files w |}.
Proof.
  eapply (upload_then_polls plain); try reflexivity. discriminate.
Defined.

Lemma upload_polls_whole_reference_witness :
  let w := start [accepted_plain_href; success_odd] in
  let out := upload_by_url plain client (lit "u") (lit "SPD-142/hi.jpg") w in
  ∃ k, (1 ≤ k ≤ 30)%nat ∧
       sent (snd out) = sent w ++ upload_request client (lit "u") (lit "SPD-142/hi.jpg") ::
         replicate k (status_request client
                        (lit "https://cloud-api.yandex.net/v1/disk/operations/33ca7d")).
Proof.
  eapply (upload_polls_whole_reference plain); try reflexivity. discriminate.
Defined.

End StorageErrors.

(** ** Where the requests go *)

Module Confinement.
Import Py PyVal World Remotes Answers YandexDiskClient Reports Frames MonadLaws StorageMore.

Section Requests.
Context {S : Type} (E : env S).



Lemma storage_request_probe tok path :
  storage_request (__init__ tok) (probe_request (__init__ tok) path).
Proof. split; [by apply prefix_app_r|done]. Qed.

Lemma storage_request_mkdir tok path :
  storage_request (__init__ tok) (mkdir_request (__init__ tok) path).
Proof. split; [by apply prefix_app_r|done]. Qed.

Lemma storage_request_status tok op :
  storage_request (__init__ tok) (status_request (__init__ tok) op).
Proof. split; [by apply prefix_app_r|done]. Qed.

Lemma storage_request_upload tok u p :
  storage_request (__init__ tok) (upload_request (__init__ tok) u p).
Proof. split; [by apply prefix_app_r|done]. Qed.

Ltac sent_quiet P :=
  first [ apply send_sent_only;
          first [ apply storage_request_probe | apply storage_request_mkdir
                | apply storage_request_status | apply storage_request_upload ]
        | apply (quiet_effects (sent_only P) (sent_only_quiet P)) ].

Lemma create_folder_authorized tok path :
  keeps (sent_only (storage_request (__init__ tok))) (create_folder E (__init__ tok) path).
Proof.
  unfold create_folder.
  repeat keeps_step; sent_quiet (storage_request (__init__ tok)).
Qed.

Lemma poll_loop_authorized tok op name n : ∀ last,
  keeps (sent_only (storage_request (__init__ tok)))
    (poll_loop E n (__init__ tok) op name last).
Proof.
  induction n as [|n IH]; intros last; simpl.
  - apply keeps_ret; rel.
  - apply keeps_bind; [rel..| |].
    + unfold poll_once. repeat keeps_step; sent_quiet (storage_request (__init__ tok)).
    + intros [b|p]; [apply keeps_ret; rel|apply IH].
Qed.

Lemma check_upload_status_authorized tok op name :
  keeps (sent_only (storage_request (__init__ tok)))
    (_check_upload_status E (__init__ tok) op name).
Proof.
  unfold _check_upload_status.
  apply keeps_bind; [rel..|apply poll_loop_authorized|]. intros ?.
  repeat keeps_step; sent_quiet (storage_request (__init__ tok)).
Qed.

Lemma upload_by_url_authorized tok u p :
  keeps (sent_only (storage_request (__init__ tok)))
    (upload_by_url E (__init__ tok) u p).
Proof.
  unfold upload_by_url.
  repeat (first [apply check_upload_status_authorized | keeps_step]);
    sent_quiet (storage_request (__init__ tok)).
Qed.

(** X19: Every request a storage client sends, in any of its methods, goes
    to an address under the storage base URL and carries the header
    [Authorization: OAuth <token>] of the token it was built from, and
    no other header. *)
Theorem storage_requests_authorized tok (a b : str) :
  let self := __init__ tok in
  keeps (sent_only (storage_request self)) (create_folder E self a) ∧
  keeps (sent_only (storage_request self)) (upload_by_url E self a b) ∧
  keeps (sent_only (storage_request self)) (_check_upload_status E self a b).
Proof.
  intros self. subst self. split; [|split].
  - apply create_folder_authorized.
  - apply upload_by_url_authorized.
  - apply check_upload_status_authorized.
Qed.

(** *** The image client *)


(** X20: The image client returns a URL only when the service answered 200
    to the probe of that very URL, which is the fixed address followed
    by the quoted caption; so the URL is never empty.  Its requests are
    [HEAD]s to the image service without any header. *)
Theorem image_url_only_when_found caption (w : world S) u :
  fst (CataasClient.get_cat_image_url E caption w) = Ok (Some u) →
  (∃ q, quote E caption = Ok q ∧
        u = CataasClient.BASE_URL ++ lit "/cat/says/" ++ q ∧
        answer_code E (net w) (CataasClient.head_request u) = Some 200) ∧
  sent (snd (CataasClient.get_cat_image_url E caption w)) =
    sent w ++ [CataasClient.head_request u].
Proof.
  unfold CataasClient.get_cat_image_url, try_except, bind, lift, send, logmsg, ret,
    answer_code.
  destruct (quote E caption) as [q|e]; simpl.
  - destruct (serve E (net w) _) as [[r|e] s'] eqn:Hs; simpl.
    + case_bool_decide as Hc; simpl; [|done]. intros [= <-]. split; [|done].
      exists q. rewrite Hs. simpl. by rewrite Hc.
    + by destruct (isinstance_RequestException e).
  - by destruct (isinstance_RequestException e).
Qed.

End Requests.

Lemma image_url_only_when_found_witness :
  (∃ q, quote plain (lit "hi") = Ok q ∧
        lit "https://cataas.com/cat/says/hi" = CataasClient.BASE_URL ++ lit "/cat/says/" ++ q ∧
        answer_code plain (net (start [image_found]))
          (CataasClient.head_request (lit "https://cataas.com/cat/says/hi")) = Some 200) ∧
  sent (snd (CataasClient.get_cat_image_url plain (lit "hi") (start [image_found]))) =
    sent (start [image_found]) ++
    [CataasClient.head_request (lit "https://cataas.com/cat/says/hi")].
Proof. apply image_url_only_when_found. vm_compute. reflexivity. Defined.

End Confinement.

(** ** Writing the records *)

Module SaveProps.
Import Py PyVal World Remotes Answers Frames BackupManager.

Section Save.
Context {S : Type} (E : env S).

Ltac run_save :=
  unfold _save_to_json, try_except, bind, get_uploaded, dump_to, logmsg.

(** X21: With nothing uploaded, nothing is written: no file is opened, and a
    warning is logged. *)
Theorem save_nothing_when_empty self (w : world S) :
  uploaded_files w = [] →
  let out := _save_to_json E self w in
  fst out = Ok () ∧ opened (snd out) = opened w ∧ files (snd out) = files w ∧
  log (snd out) = log w ++ [(CatBackup, WARNING, NothingToSave)].
Proof. intros H out. subst out. run_save. simpl. by rewrite H. Qed.

(** X22: A write that goes through leaves, under the name made from the
    group, one entry per uploaded file, in the order of the list, each
    with the file's five fields, the time and the group; what the file
    held before is replaced, and no other file changes. *)
Theorem save_writes_all_records self (w : world S) :
  uploaded_files w ≠ [] →
  write_file E (json_filename self) = Ok () →
  let out := _save_to_json E self w in
  fst out = Ok () ∧
  files (snd out) =
    <[json_filename self := entry_of E self <$> uploaded_files w]> (files w) ∧
  opened (snd out) = opened w ++ [json_filename self] ∧
  uploaded_files (snd out) = uploaded_files w ∧
  log (snd out) = log w ++ [(CatBackup, INFO, SavedTo (json_filename self))].
Proof.
  intros Hne Hw out. subst out. run_save. simpl.
  destruct (uploaded_files w) as [|fi l] eqn:Hup; [done|]. simpl.
  rewrite Hw. simpl. by rewrite Hup.
Qed.

(** X23: When the write raises, after the one attempt to open the record
    file, an [IOError] is logged and the method returns; any other
    exception is raised to the caller, with nothing logged. *)
Theorem save_write_fails self (w : world S) e :
  uploaded_files w ≠ [] →
  write_file E (json_filename self) = Raise e →
  let out := _save_to_json E self w in
  fst out = (if isinstance_IOError e then Ok () else Raise e) ∧
  opened (snd out) = opened w ++ [json_filename self] ∧
  log (snd out) = log w ++
    (if isinstance_IOError e then [(CatBackup, ERROR, SaveFailed e)] else []).
Proof.
  intros Hne Hw out. subst out. run_save. simpl.
  destruct (uploaded_files w) as [|fi l] eqn:Hup; [done|]. simpl.
  rewrite Hw. simpl. destruct (isinstance_IOError e); simpl; [done|].
  by rewrite app_nil_r.
Qed.

End Save.

Lemma save_nothing_when_empty_witness :
  let w := start favourable in
  let out := _save_to_json plain manager w in
  fst out = Ok () ∧ opened (snd out) = opened w ∧ files (snd out) = files w ∧
  log (snd out) = log w ++ [(CatBackup, WARNING, NothingToSave)].
Proof. apply save_nothing_when_empty. reflexivity. Defined.

Lemma save_writes_all_records_witness :
  let w := holding favourable [sample_file; sample_file] in
  let out := _save_to_json plain manager w in
  fst out = Ok () ∧
  files (snd out) =
    <[json_filename manager := entry_of plain manager <$> uploaded_files w]> (files w) ∧
  opened (snd out) = opened w ++ [json_filename manager] ∧
  uploaded_files (snd out) = uploaded_files w ∧
  log (snd out) = log w ++ [(CatBackup, INFO, SavedTo (json_filename manager))].
Proof. apply save_writes_all_records; [discriminate|reflexivity]. Defined.

Lemma save_write_fails_witness :
  let w := holding favourable [sample_file] in
  let out := _save_to_json (scripted read_only) manager w in
  fst out = Ok () ∧
  opened (snd out) = opened w ++ [json_filename manager] ∧
  log (snd out) = log w ++ [(CatBackup, ERROR, SaveFailed OSError)].
Proof.
  apply (save_write_fails (scripted read_only) manager _ OSError);
    [discriminate|reflexivity].
Defined.

End SaveProps.

(** ** Idempotence of folder creation on the folder store *)

Module FolderStoreProps.
Import Py PyVal World Remotes Answers YandexDiskClient Reports.

Lemma folder_store_effective self path :
  mkdir_effective folder_store (probe_request self path) (mkdir_request self path).
Proof.
  intros s c. unfold answer_code. simpl. unfold folder_serve. simpl.
  rewrite lookup_singleton_eq. simpl.
  case_bool_decide as Hin; simpl; intros _ _.
  - by rewrite bool_decide_eq_true_2.
  - rewrite bool_decide_eq_true_2; [done|]. apply elem_of_union_l, elem_of_singleton_2.
    reflexivity.
Qed.

Lemma create_folder_again_witness :
  let out1 := create_folder folder_store client (lit "SPD-142") (start (∅ : gset str)) in
  let out2 := create_folder folder_store client (lit "SPD-142") (snd out1) in
  fst out2 = Ok true ∧
  sent (snd out2) = sent (snd out1) ++ [probe_request client (lit "SPD-142")].
Proof.
  apply (StorageProps.create_folder_again folder_store client (lit "SPD-142")).
  - apply StorageProps.folder_store_stable.
  - apply folder_store_effective.
  - vm_compute. reflexivity.
Defined.

End FolderStoreProps.

(** ** The pipeline of run_backup *)

Module PipelineProps.
Import Py PyVal World Remotes Answers Frames MonadLaws YandexDiskClient BackupManager.

Section Pipeline.
Context {S : Type} (E : env S).

(** The size probe always returns, and touches neither the log nor the
    local side. *)
Lemma size_probe_total url (w : world S) :
  ∃ n w', _get_remote_file_size E url w = (Ok n, w') ∧ same_local w w' ∧
          log w' = log w ∧ sent w' = sent w ++ [CataasClient.head_request url].
Proof.
  unfold _get_remote_file_size, try_except, bind, send, lift, ret.
  destruct (serve E (net w) (CataasClient.head_request url)) as [[r|e] s']; simpl.
  - destruct (resp_headers r !! lit "content-length") as [v|]; simpl.
    + destruct (py_int (int_max_str_digits E) v); simpl; by eexists _, _.
    + by eexists _, _.
  - by eexists _, _.
Qed.

(** The record made by a run for a caption, given the URL of the image
    and the size the probe returned. *)
Lemma save_after_append self (w : world S) fi :
  let w1 := snd (append_uploaded (S:=S) fi w) in
  fst (_save_to_json E self w1) =
    (match write_file E (json_filename self) with
     | Ok _ => Ok ()
     | Raise e => if isinstance_IOError e then Ok () else Raise e
     end) ∧
  uploaded_files (snd (_save_to_json E self w1)) = uploaded_files w ++ [fi] ∧
  opened (snd (_save_to_json E self w1)) = opened w ++ [json_filename self].
Proof.
  intros w1. subst w1.
  unfold _save_to_json, try_except, bind, get_uploaded, dump_to, logmsg, append_uploaded.
  simpl. destruct (uploaded_files w ++ [fi]) as [|x l] eqn:Hl.
  { by destruct (uploaded_files w). }
  simpl. destruct (write_file E (json_filename self)) as [[]|e]; simpl; [done|].
  destruct (isinstance_IOError e); simpl; done.
Qed.

(** X24: With the name [YandexDiskUploader] unbound, as in the script, or
    bound to the class of the storage client, a run ends in one of two
    ways.  Either it returns [False] having recorded nothing and opened
    no file; or it has added exactly one record to the list, made from
    the caption as [run_backup] says, and tried one write of the record
    file, and then it returns [True] exactly when that write went
    through or failed with an [IOError].  It never raises. *)
Theorem run_backup_in_outcome g self caption token (w : world S) :
  unbound_or_client g = true →
  let out := run_backup_in E g self caption token w in
  (fst out = Ok false ∧ same_local w (snd out)) ∨
  (∃ size image_url,
     uploaded_files (snd out) = uploaded_files w ++
       [{| filename := FileName.safe_filename caption; size_bytes := size;
           text := caption; download_url := image_url;
           yandex_path := netology_group self ++ lit "/" ++
                          FileName.safe_filename caption |}] ∧
     opened (snd out) = opened w ++ [json_filename self] ∧
     fst out = Ok (write_tolerated (write_file E (json_filename self)))).
Proof.
  intros Hg out. subst out.
  unfold run_backup_in, try_except, bind, lift, ret, logmsg. simpl.
  match goal with |- context [CataasClient.get_cat_image_url E caption ?w0] =>
    pose proof (BackupProps.get_cat_image_url_local E caption w0) as Hloc1;
    destruct (CataasClient.get_cat_image_url E caption w0) as [[[[|c u]|]|e] w1]
  end; simpl in *; try (left; split; [done|apply Hloc1]).
  unfold lookup_name. unfold unbound_or_client in Hg.
  destruct (g !! "YandexDiskUploader"%string) as [[]|]; try discriminate Hg; simpl;
    [|left; split; [done|apply Hloc1]].
  set (cl := YandexDiskClient.__init__ token).
  match goal with |- context [create_folder E cl ?p ?w0] =>
    pose proof (StorageMore.create_folder_local E cl p w0) as Hloc2;
    destruct (create_folder E cl p w0) as [[[|]|e] w2]
  end; simpl in *;
    try (left; split; [done|by eapply same_local_trans; [apply Hloc1|apply Hloc2]]).
  match goal with |- context [upload_by_url E cl ?a ?b ?w0] =>
    pose proof (StorageMore.upload_by_url_local E cl a b w0) as Hloc3;
    destruct (upload_by_url E cl a b w0) as [[[|]|e] w3]
  end; simpl in *;
    try (left; split; [done|by eapply same_local_trans; [apply Hloc1|eapply same_local_trans; [apply Hloc2|apply Hloc3]]]).
  match goal with |- context [_get_remote_file_size E ?a ?w0] =>
    destruct (size_probe_total a w0) as (n & w4 & -> & Hloc4 & _)
  end; simpl.
  assert (same_local w w4) as (Hu & Ho & Hf).
  { eapply same_local_trans; [apply Hloc1|]. eapply same_local_trans; [apply Hloc2|]. eapply same_local_trans; [apply Hloc3|apply Hloc4]. }
  right. exists n, (c :: u).
  match goal with |- context [_save_to_json E self ?w5] =>
    match w5 with context [?fi :: nil] =>
      pose proof (save_after_append self w4 fi) as (Hres & Hup & Hop)
    end
  end.
  unfold append_uploaded in *. simpl in *.
  match goal with |- context [_save_to_json E self ?w5] =>
    destruct (_save_to_json E self w5) as [[[]|e] w6]
  end; simpl in *.
  - rewrite Hup, Hop, Hu, Ho. repeat split; try done.
    destruct (write_file E (json_filename self)) as [[]|e]; simpl; [done|].
    by destruct (isinstance_IOError e).
  - rewrite Hup, Hop, Hu, Ho. repeat split; try done.
    destruct (write_file E (json_filename self)) as [[]|e']; simpl; [done|].
    by destruct (isinstance_IOError e').
Qed.

(** *** Where the token goes *)








(** *** The run as the script stands, and the run with the name bound *)

(** X26: As the script stands, a run sends at most one request, the [HEAD]
    probe of the image; nothing ever reaches the storage service. *)
Theorem run_backup_sends_one_probe self caption token (w : world S) :
  let out := run_backup E self caption token w in
  sent (snd out) = sent w ∨
  ∃ q, quote E caption = Ok q ∧
       sent (snd out) = sent w ++
         [CataasClient.head_request (CataasClient.BASE_URL ++ lit "/cat/says/" ++ q)].
Proof.
  intros out. subst out. unfold run_backup, run_backup_in.
  rewrite BackupProps.uploader_unbound.
  unfold CataasClient.get_cat_image_url, try_except, bind, lift, send, logmsg, ret. simpl.
  destruct (quote E caption) as [q|e]; simpl.
  - right. exists q. split; [done|].
    destruct (serve E (net w) _) as [[r|e] s']; simpl.
    + case_bool_decide; simpl; [|done].
      by destruct (CataasClient.BASE_URL ++ lit "/cat/says/" ++ q).
    + by destruct (isinstance_RequestException e).
  - left. by destruct (isinstance_RequestException e).
Qed.

Lemma save_after_append_files self (w : world S) fi :
  write_file E (json_filename self) = Ok () →
  files (snd (_save_to_json E self (snd (append_uploaded (S:=S) fi w)))) =
    <[json_filename self := entry_of E self <$> (uploaded_files w ++ [fi])]> (files w).
Proof.
  intros Hw.
  unfold _save_to_json, try_except, bind, get_uploaded, dump_to, logmsg, append_uploaded.
  simpl. destruct (uploaded_files w ++ [fi]) as [|x l] eqn:Hl.
  { by destruct (uploaded_files w). }
  simpl. by rewrite Hw.
Qed.

Ltac calm :=
  cbn [net sent slept pbar log opened files uploaded_files fst snd negb].

Tactic Notation "calm" "in" hyp(H) :=
  cbn [net sent slept pbar log opened files uploaded_files fst snd negb] in H.

Lemma get_cat_image_url_found caption (w : world S) q r :
  quote E caption = Ok q →
  fst (serve E (net w) (CataasClient.head_request
                          (CataasClient.BASE_URL ++ lit "/cat/says/" ++ q))) = Answer r →
  status_code r = 200 →
  CataasClient.get_cat_image_url E caption w =
    (Ok (Some (CataasClient.BASE_URL ++ lit "/cat/says/" ++ q)),
     {| net := snd (serve E (net w) (CataasClient.head_request
                                       (CataasClient.BASE_URL ++ lit "/cat/says/" ++ q)));
        sent := sent w ++ [CataasClient.head_request
                             (CataasClient.BASE_URL ++ lit "/cat/says/" ++ q)];
        slept := slept w; pbar := pbar w;
        log := log w ++ [(ModuleLogger, INFO, ImageUrlObtained caption)];
        opened := opened w; files := files w;
        uploaded_files := uploaded_files w |}).
Proof.
  intros Hq Hr Hc.
  unfold CataasClient.get_cat_image_url, try_except, bind, lift, send, logmsg, ret.
  rewrite Hq.
  destruct (serve E (net w) _) as [rep s']. cbn [fst snd] in *. subst rep.
  cbn [fst snd]. rewrite bool_decide_eq_true_2 by done. reflexivity.
Qed.

Lemma upload_done self file_url save_path (w : world S) r body :
  fst (serve E (net w) (upload_request self file_url save_path)) = Answer r →
  raise_for_status r = Ok () →
  json r = Ok body →
  operation_id_of body = Ok [] →
  upload_by_url E self file_url save_path w =
    (Ok true,
     {| net := snd (serve E (net w) (upload_request self file_url save_path));
        sent := sent w ++ [upload_request self file_url save_path];
        slept := slept w; pbar := pbar w;
        log := log w ++ [(ModuleLogger, INFO, UploadStarts save_path)];
        opened := opened w; files := files w;
        uploaded_files := uploaded_files w |}).
Proof.
  intros Hr Hst Hjs Hid.
  unfold upload_by_url, try_except, bind, logmsg, send, lift, ret.
  cbn [net sent slept pbar log opened files uploaded_files fst snd].
  destruct (serve E (net w) (upload_request self file_url save_path)) as [rep s'].
  cbn [fst snd] in *. subst rep. cbn [fst snd]. rewrite Hst, Hjs, Hid. reflexivity.
Qed.

(** X27: With [YandexDiskUploader] bound to the client class, a run in which
    the image is found, the folder is there, the upload is accepted
    with no operation to wait for, and the write goes through or fails
    with an [IOError], returns [True]: it has added one record for the
    caption, and when the write went through the record file holds all
    records of the list, no other file having changed. *)
Theorem run_backup_in_succeeds g self caption token (w : world S) q r1 r2 r3 body :
  g !! "YandexDiskUploader"%string = Some ClsYandexDiskClient →
  quote E caption = Ok q →
  let image_url := CataasClient.BASE_URL ++ lit "/cat/says/" ++ q in
  let cl := YandexDiskClient.__init__ token in
  let path := netology_group self ++ lit "/" ++ FileName.safe_filename caption in
  let s1 := snd (serve E (net w) (CataasClient.head_request image_url)) in
  let s2 := snd (serve E s1 (probe_request cl (netology_group self))) in
  fst (serve E (net w) (CataasClient.head_request image_url)) = Answer r1 →
  status_code r1 = 200 →
  fst (serve E s1 (probe_request cl (netology_group self))) = Answer r2 →
  status_code r2 = 200 →
  fst (serve E s2 (upload_request cl image_url path)) = Answer r3 →
  raise_for_status r3 = Ok () →
  json r3 = Ok body →
  operation_id_of body = Ok [] →
  write_tolerated (write_file E (json_filename self)) = true →
  let out := run_backup_in E g self caption token w in
  fst out = Ok true ∧
  (∃ size, uploaded_files (snd out) = uploaded_files w ++
     [{| filename := FileName.safe_filename caption; size_bytes := size;
         text := caption; download_url := image_url; yandex_path := path |}]) ∧
  match write_file E (json_filename self) with
  | Ok _ =>
      files (snd out) =
        <[json_filename self := entry_of E self <$> uploaded_files (snd out)]> (files w)
  | Raise _ => True
  end.
Proof.
  intros Hg Hq image_url cl path s1 s2 H1 Hc1 H2 Hc2 H3 Hst Hjs Hid Hwr out.
  assert (image_url = 104%N :: List.tl image_url) as Hu by reflexivity.
  subst out. unfold run_backup_in, lookup_name. rewrite Hg.
  unfold try_except, bind, lift, ret, logmsg, call_for_client. calm.
  erewrite get_cat_image_url_found by eassumption. fold image_url.
  assert (∃ c0 u0, image_url = c0 :: u0) as (c0 & u0 & Hcons) by (by eexists _, _).
  clear Hu. clearbody image_url. subst image_url. calm. fold cl.
  rewrite StorageProps.create_folder_found
    by (unfold Reports.answer_code; calm; fold s1; by rewrite H2, Hc2).
  calm. fold s1 path.
  erewrite upload_done; [|exact H3|exact Hst|exact Hjs|exact Hid].
  calm.
  match goal with |- context [_get_remote_file_size E ?a ?w0] =>
    destruct (size_probe_total a w0) as (n & w4 & -> & (Hu4 & Ho4 & Hf4) & _)
  end. calm in Hu4. calm in Hf4. calm.
  unfold append_uploaded. calm.
  match goal with |- context [_save_to_json E self ?w5] =>
    match w5 with context [?fi :: nil] =>
      pose proof (save_after_append self w4 fi) as (Hres & Hup & Hop);
      pose proof (save_after_append_files self w4 fi) as Hfiles
    end
  end.
  unfold append_uploaded in Hres, Hup, Hfiles. calm in Hres. calm in Hup. calm in Hfiles.
  match goal with |- context [_save_to_json E self ?w5] =>
    destruct (_save_to_json E self w5) as [[[]|e] w6]
  end; calm; calm in Hup; calm in Hfiles; calm in Hres.
  - rewrite Hup, Hu4. split; [done|]. split; [by exists n|].
    destruct (write_file E (json_filename self)) as [[]|e'] eqn:Hw; [|done].
    by rewrite Hfiles, Hu4, Hf4.
  - exfalso. destruct (write_file E (json_filename self)) as [[]|e']; [done|].
    unfold write_tolerated in Hwr. by rewrite Hwr in Hres.
Qed.

End Pipeline.

Lemma run_backup_in_outcome_witness :
  let w := start favourable in
  let out := run_backup_in plain globals_with_uploader manager
               (lit "hi") (lit "secret") w in
  (fst out = Ok false ∧ same_local w (snd out)) ∨
  (∃ size image_url,
     uploaded_files (snd out) = uploaded_files w ++
       [{| filename := FileName.safe_filename (lit "hi"); size_bytes := size;
           text := lit "hi"; download_url := image_url;
           yandex_path := netology_group manager ++ lit "/" ++
                          FileName.safe_filename (lit "hi") |}] ∧
     opened (snd out) = opened w ++ [json_filename manager] ∧
     fst out = Ok (write_tolerated (write_file plain (json_filename manager)))).
Proof.
  apply (run_backup_in_outcome plain globals_with_uploader manager
           (lit "hi") (lit "secret") (start favourable)).
  reflexivity.
Defined.


Lemma run_backup_in_succeeds_witness :
  let out := run_backup_in plain globals_with_uploader manager
               (lit "hi") (lit "secret") (start favourable) in
  fst out = Ok true ∧
  (∃ size, uploaded_files (snd out) = uploaded_files (start favourable) ++
     [{| filename := FileName.safe_filename (lit "hi"); size_bytes := size;
         text := lit "hi";
         download_url := CataasClient.BASE_URL ++ lit "/cat/says/" ++ lit "hi";
         yandex_path := netology_group manager ++ lit "/" ++
                        FileName.safe_filename (lit "hi") |}]) ∧
  match write_file plain (json_filename manager) with
  | Ok _ =>
      files (snd out) =
        <[json_filename manager :=
            entry_of plain manager <$> uploaded_files (snd out)]>
          (files (start favourable))
  | Raise _ => True
  end.
Proof.
  eapply (run_backup_in_succeeds plain globals_with_uploader manager
            (lit "hi") (lit "secret") (start favourable) (lit "hi")); reflexivity.
Defined.

End PipelineProps.

(** ** The entry point *)

Module MainProps.
Import Py PyVal World Remotes Answers Frames BackupManager Main.

Section Entry.
Context {S : Type} (E : env S) (open_log : result ()).

Ltac run_main := unfold main, cbind, print, input, in_world, __init__.

(** X28: A caption that is empty or all white space stops [main] at once: it
    says so, asks for no token, and the world is untouched (no request,
    no log, no file). *)
Theorem main_blank_caption (c : console S) line rest :
  stdin c = line :: rest →
  str_strip line = [] →
  main E open_log c =
    (Ok (), {| stdin := rest;
               stdout := stdout c ++ [Print Bar60; Print Title; Print Bar60;
                                      Ask AskCaption; Print CaptionEmpty];
               inner := inner c |}).
Proof.
  intros Hin Hblank. run_main. simpl. rewrite Hin. simpl. rewrite Hblank. simpl.
  by rewrite <- !app_assoc.
Qed.

Lemma run_backup_false self caption token (w : world S) :
  fst (run_backup E self caption token w) = Ok false.
Proof.
  unfold run_backup, run_backup_in. rewrite BackupProps.uploader_unbound.
  unfold try_except, bind, logmsg at 1 2 3 4. simpl.
  match goal with |- context [CataasClient.get_cat_image_url E caption ?w0] =>
    destruct (CataasClient.get_cat_image_url E caption w0) as [[[[|c u]|]|e] w1]
  end; done.
Qed.

(** X29: With a caption and a token, and the log file opened, [main] runs the
    backup on the stripped inputs for the group [SPD-142], with a fresh
    manager, and then reports failure: this is all it ever reports,
    since the run returns [False]. *)
Theorem main_reports_failure (c : console S) line1 line2 rest :
  stdin c = line1 :: line2 :: rest →
  str_strip line1 ≠ [] →
  str_strip line2 ≠ [] →
  open_log = Ok () →
  let out := main E open_log c in
  fst out = Ok () ∧
  stdin (snd out) = rest ∧
  stdout (snd out) = stdout c ++
    [Print Bar60; Print Title; Print Bar60; Ask AskCaption; Ask AskToken;
     Print Starting; Print (ShowCaption (str_strip line1));
     Print (ShowGroup NETOLOGY_GROUP_NAME); Print Dashes40;
     Print Failed; Print CheckLogs; Print Bar60] ∧
  inner (snd out) =
    snd (run_backup E {| netology_group := NETOLOGY_GROUP_NAME |}
           (str_strip line1) (str_strip line2)
           {| net := net (inner c); sent := sent (inner c); slept := slept (inner c);
              pbar := pbar (inner c); log := log (inner c); opened := opened (inner c);
              files := files (inner c); uploaded_files := [] |}).
Proof.
  intros Hin Hcap Htok Hlog out. subst out. run_main. simpl. rewrite Hin. simpl.
  rewrite (bool_decide_eq_false_2 _ Hcap). simpl.
  rewrite (bool_decide_eq_false_2 _ Htok). simpl. rewrite Hlog. simpl.
  match goal with |- context [run_backup E ?m ?a ?b ?w0] =>
    pose proof (run_backup_false m a b w0) as Hf;
    destruct (run_backup E m a b w0) as [[[|]|e] w1]
  end; simpl in *; try done.
  by rewrite <- !app_assoc.
Qed.

Ltac not_there :=
  let H := fresh in
  intros H; repeat (apply elem_of_cons in H as [H|H]; [discriminate|]);
  by apply elem_of_nil in H.

(** X30: Whatever is typed, [main] never prints the success banner. *)
Theorem main_never_announces_success (c : console S) :
  ∃ l, stdout (snd (main E open_log c)) = stdout c ++ l ∧ Print Succeeded ∉ l.
Proof.
  run_main. simpl.
  destruct (stdin c) as [|line1 rest1]; simpl.
  { eexists. rewrite <- !app_assoc. split; [done|]. not_there. }
  case_bool_decide; simpl.
  { eexists. rewrite <- !app_assoc. split; [done|]. not_there. }
  destruct rest1 as [|line2 rest2]; simpl.
  { eexists. rewrite <- !app_assoc. split; [done|]. not_there. }
  case_bool_decide; simpl.
  { eexists. rewrite <- !app_assoc. split; [done|]. not_there. }
  destruct open_log as [[]|e]; simpl.
  - match goal with |- context [run_backup E ?m ?a ?b ?w0] =>
      pose proof (run_backup_false m a b w0) as Hf;
      destruct (run_backup E m a b w0) as [[[|]|e] w1]
    end; simpl in *; try done.
    eexists. rewrite <- !app_assoc. split; [done|]. not_there.
  - eexists. rewrite <- !app_assoc. split; [done|]. not_there.
Qed.

End Entry.

Lemma main_blank_caption_witness :
  main plain (Ok ()) (session [lit "   "; lit "secret"] (start [image_found])) =
    (Ok (), {| stdin := [lit "secret"];
               stdout := [] ++ [Print Bar60; Print Title; Print Bar60;
                                Ask AskCaption; Print CaptionEmpty];
               inner := start [image_found] |}).
Proof.
  apply (main_blank_caption plain (Ok ()) (session _ _) (lit "   ") [lit "secret"]);
    reflexivity.
Defined.

Lemma main_reports_failure_witness :
  let c := session [lit " hi "; lit "secret"] (start favourable) in
  let out := main plain (Ok ()) c in
  fst out = Ok () ∧
  stdin (snd out) = [] ∧
  stdout (snd out) = stdout c ++
    [Print Bar60; Print Title; Print Bar60; Ask AskCaption; Ask AskToken;
     Print Starting; Print (ShowCaption (str_strip (lit " hi ")));
     Print (ShowGroup NETOLOGY_GROUP_NAME); Print Dashes40;
     Print Failed; Print CheckLogs; Print Bar60] ∧
  inner (snd out) =
    snd (run_backup plain {| netology_group := NETOLOGY_GROUP_NAME |}
           (str_strip (lit " hi ")) (str_strip (lit "secret"))
           {| net := net (inner c); sent := sent (inner c); slept := slept (inner c);
              pbar := pbar (inner c); log := log (inner c); opened := opened (inner c);
              files := files (inner c); uploaded_files := [] |}).
Proof.
  apply (main_reports_failure plain (Ok ()) (session _ _) _ _ []);
    [reflexivity|discriminate|discriminate|reflexivity].
Defined.

End MainProps.
